(** * AircraftConflict: pairwise conflict and violation detection

    A shallow embedding of [src/assets/scripts/aircraft/AircraftConflict.js].
    JavaScript numbers are read as real numbers, objects used as string-keyed
    maps ([conflicts], [violations], the runway metadata table) as [gmap]s,
    and the calls on collaborators (notifier, aircraft registry, runway
    queues) as an event log carried in the state.  The fault that is
    modelled is the read of a property on [undefined], which ends a method
    with the [Throw] completion. *)

From Stdlib Require Import Reals Lra String List.
From stdpp Require Import base decidable option strings gmap.

Local Open Scope R_scope.

(** ** Numbers and comparisons *)

#[global] Instance Rlt_decision : RelDecision Rlt := Rlt_dec.
#[global] Instance Rle_decision : RelDecision Rle := Rle_dec.
#[global] Instance Rgt_decision : RelDecision Rgt := Rgt_dec.
#[global] Instance Rge_decision : RelDecision Rge := Rge_dec.

(** Modelled from the spec: the global function [abs], defined outside this
    file; [altitude] is "the absolute difference of altitudes". *)
Definition abs (x : R) : R := Rabs x.

(** ** Helpers imported by the file *)

Definition vec : Type := R * R.

(** Modelled from the spec: [vsub], imported from [math/vector]; the
    distance is "the Euclidean horizontal distance between position
    vectors", so [vsub] is the componentwise difference. *)
Definition vsub (a b : vec) : vec := (a.1 - b.1, a.2 - b.2).

(** Modelled from the spec: [vlen], imported from [math/vector]; it is the
    Euclidean length. *)
Definition vlen (v : vec) : R := sqrt (v.1 * v.1 + v.2 * v.2).

(** Modelled from the spec: [degreesToRadians], imported from
    [utilities/unitConverters]; ground tracks are "heading, radians" and
    the thresholds are given in degrees. *)
Definition degreesToRadians (deg : R) : R := deg * PI / 180.

(** Modelled from the spec: the global function [km_ft], defined outside
    this file; the lateral distance between runways is "converted to feet"
    (one foot is 0.3048 m). *)
Definition km_ft (km : R) : R := km / 0.0003048.

(** Modelled from the spec: the global function [angle_offset], defined
    outside this file; its absolute value is "the absolute angular difference between the two
    aircraft's ground tracks, normalized to [0, 180] degrees".  The signed
    difference [a - b] is brought into the half-open interval from [-PI] to
    [PI] by removing whole turns. *)
Definition angle_offset (a b : R) : R :=
  let d := a - b in
  d - 2 * PI * IZR (Int_part ((d + PI) / (2 * PI))).

(** Modelled from the spec: the global function [vturn], defined outside
    this file; with one argument it gives the "unit track-direction" of a
    heading, which is measured clockwise from north. *)
Definition vturn (radians : R) : vec := (sin radians, cos radians).

(** ** Collaborators *)

Module Aircraft.
(** The part of an aircraft that the tracker reads, and the [hit] flag that
    it writes. *)
Record t := mk {
  getCallsign : string;
  position : vec;
  altitude : R;
  groundTrack : R;
  takeoffTime : R;
  rwy_dep : option string;   (* [None] is [null] *)
  rwy_arr : option string;
  isLanded : bool;
  isTaxiing : bool;
  isVisible : bool;
  isPrecisionGuided : bool;
  hit : bool
}.

Definition set_hit (b : bool) (a : t) : t :=
  mk (getCallsign a) (position a) (altitude a) (groundTrack a)
     (takeoffTime a) (rwy_dep a) (rwy_arr a) (isLanded a) (isTaxiing a)
     (isVisible a) (isPrecisionGuided a) b.
End Aircraft.

(** A runway object, known by its identity. *)
Definition Runway : Type := nat.

(** An entry of [airport.metadata.rwy[a][b]]. *)
Record RunwayRelationship := {
  parallel : bool;
  lateral_dist : R
}.

Record Airport := {
  elevation : R;
  (** both ends of every runway *)
  runways : list (Runway * Runway);
  (** lookup by identifier, "returning a canonical runway object"; [None]
      is the [null] returned for an identifier that matches no runway *)
  getRunway : option string -> option Runway;
  metadata_rwy : gmap string (gmap string RunwayRelationship)
}.

(** What the globals [airport_get()] and [game_time()] return during one
    call of [update]. *)
Record Env := {
  airport_get : Airport;
  game_time : R
}.

(** ** Effects on collaborators *)

Inductive Side := First | Second.

Inductive Event :=
| ui_log (warn : bool) (message : string)
| addConflict (on other : Side)
| removeConflict (on other : Side)
| removeQueue (rwy : Runway) (who : Side) (force : bool).

(** ** The tracker *)

(** The fields of [this], the two counters of [prop.game.score] and the
    calls made so far. *)
Record State := mkState {
  aircraft : Aircraft.t * Aircraft.t;
  distance : R;
  distance_delta : R;
  altitude : R;
  collided : bool;
  conflicts : gmap string bool;
  violations : gmap string bool;
  score_hit : R;
  score_warning : R;
  log : list Event
}.

Definition set_geometry (d dd alt : R) (s : State) : State :=
  mkState (aircraft s) d dd alt (collided s) (conflicts s) (violations s)
          (score_hit s) (score_warning s) (log s).

Definition set_collided (b : bool) (s : State) : State :=
  mkState (aircraft s) (distance s) (distance_delta s) (altitude s) b
          (conflicts s) (violations s) (score_hit s) (score_warning s) (log s).

Definition set_conflicts (m : gmap string bool) (s : State) : State :=
  mkState (aircraft s) (distance s) (distance_delta s) (altitude s)
          (collided s) m (violations s) (score_hit s) (score_warning s) (log s).

Definition set_violations (m : gmap string bool) (s : State) : State :=
  mkState (aircraft s) (distance s) (distance_delta s) (altitude s)
          (collided s) (conflicts s) m (score_hit s) (score_warning s) (log s).

Definition set_aircraft (p : Aircraft.t * Aircraft.t) (s : State) : State :=
  mkState p (distance s) (distance_delta s) (altitude s)
          (collided s) (conflicts s) (violations s)
          (score_hit s) (score_warning s) (log s).

Definition set_score_hit (x : R) (s : State) : State :=
  mkState (aircraft s) (distance s) (distance_delta s) (altitude s)
          (collided s) (conflicts s) (violations s)
          x (score_warning s) (log s).

Definition set_score_warning (x : R) (s : State) : State :=
  mkState (aircraft s) (distance s) (distance_delta s) (altitude s)
          (collided s) (conflicts s) (violations s)
          (score_hit s) x (log s).

(** Calls are logged in the order they are made. *)
Definition emit (es : list Event) (s : State) : State :=
  mkState (aircraft s) (distance s) (distance_delta s) (altitude s)
          (collided s) (conflicts s) (violations s)
          (score_hit s) (score_warning s) (log s ++ es).

(** How a method ends: it returns, or a fault propagates out of it. *)
Inductive JsError := TypeError.

Inductive Completion :=
| Normal (s : State)
| Throw (e : JsError) (s : State).

(** The truth value of [m[k]]: a missing key reads [undefined]. *)
Definition truthy (m : gmap string bool) (k : string) : bool :=
  default false (m !! k).

(** The property key a runway identifier is turned into. *)
Definition propertyKey (id : option string) : string := default "null" id.

(** *** hasConflict, hasViolation, hasAlerts *)

Definition anyTrue (m : gmap string bool) : bool :=
  existsb (fun kv => kv.2) (map_to_list m).

Definition hasConflict (s : State) : bool := anyTrue (conflicts s).
Definition hasViolation (s : State) : bool := anyTrue (violations s).
Definition hasAlerts (s : State) : bool * bool := (hasConflict s, hasViolation s).

(** *** remove *)

Definition remove (s : State) : State :=
  emit [removeConflict First Second; removeConflict Second First] s.

(** *** checkCollision *)

(** The calls of the loop over [airport_get().runways]. *)
Definition removeFromQueues (rwys : list (Runway * Runway)) : list Event :=
  flat_map (fun rwy =>
    [ removeQueue rwy.1 First true; removeQueue rwy.1 Second true;
      removeQueue rwy.2 First true; removeQueue rwy.2 Second true ]) rwys.

Definition checkCollision (env : Env) (s : State) : State :=
  let a0 := (aircraft s).1 in
  let a1 := (aircraft s).2 in
  if Aircraft.isLanded a0 || Aircraft.isLanded a1 then s
  else if (bool_decide (distance s < 0.05) && bool_decide (altitude s < 160))
          && (Aircraft.isVisible a0 && Aircraft.isVisible a1)
  then
    let s := set_collided true s in
    let s := emit [ui_log true (Aircraft.getCallsign a0 +:+ " collided with "
                                +:+ Aircraft.getCallsign a1)] s in
    let s := set_score_hit (score_hit s + 1) s in
    let s := set_aircraft (Aircraft.set_hit true a0, Aircraft.set_hit true a1) s in
    emit (removeFromQueues (runways (airport_get env))) s
  else s.

(** *** checkRunwayCollision *)

Definition checkRunwayCollision (env : Env) (s : State) : State :=
  let airport := airport_get env in
  let a0 := (aircraft s).1 in
  let a1 := (aircraft s).2 in
  if (negb (Aircraft.isTaxiing a0) && negb (Aircraft.isTaxiing a1))
     && bool_decide (Aircraft.rwy_dep a0 <> None)
     && bool_decide (Aircraft.rwy_dep a0 <> Aircraft.rwy_dep a1)
     && bool_decide (getRunway airport (Aircraft.rwy_dep a1)
                     = getRunway airport (Aircraft.rwy_dep a0))
     && bool_decide (distance s < 10)
  then
    if negb (truthy (conflicts s) "runwayCollision") then
      let s := set_conflicts (<["runwayCollision" := true]> (conflicts s)) s in
      let s := emit [ui_log true (Aircraft.getCallsign a0
                                  +:+ " appears on a collision course with "
                                  +:+ Aircraft.getCallsign a1
                                  +:+ " on the same runway")] s in
      set_score_warning (score_warning s + 1) s
    else s
  else set_conflicts (<["runwayCollision" := false]> (conflicts s)) s.

(** *** checkProximity *)

(** The bands of lines 199-208; [applicableLatSepMin] keeps its value when
    no test of the chain holds. *)
Definition parallelLatSepMin (applicableLatSepMin feetBetween : R) : R :=
  if bool_decide (feetBetween < 2500) then 5.556
  else if bool_decide (2500 <= feetBetween) && bool_decide (feetBetween <= 3600) then 1.852
  else if bool_decide (3600 < feetBetween) && bool_decide (feetBetween <= 4300) then 2.778
  else if bool_decide (4300 < feetBetween) && bool_decide (feetBetween <= 9000) then 3.704
  else if bool_decide (feetBetween > 9000) then 5.556
  else applicableLatSepMin.

(** [airport_get().metadata.rwy[a][b]] followed by the read of [.parallel]:
    a missing row makes the second index a read on [undefined], a missing
    entry makes [.parallel] one. *)
Definition runwayRelationship (airport : Airport) (a b : option string)
  : JsError + RunwayRelationship :=
  match metadata_rwy airport !! propertyKey a with
  | None => inl TypeError
  | Some row =>
      match row !! propertyKey b with
      | None => inl TypeError
      | Some rel => inr rel
      end
  end.

(** Lines 187-218: the applicable lateral separation minimum and
    [disableNotices]. *)
Definition applicableSeparation (env : Env) (a1 a2 : Aircraft.t)
  : JsError + (R * bool) :=
  let applicableLatSepMin := 5.556 in
  if (Aircraft.isPrecisionGuided a1 && Aircraft.isPrecisionGuided a2)
     && bool_decide (Aircraft.rwy_arr a1 <> Aircraft.rwy_arr a2)
  then
    match runwayRelationship (airport_get env) (Aircraft.rwy_arr a1) (Aircraft.rwy_arr a2) with
    | inl e => inl e
    | inr rel =>
        if parallel rel then
          let feetBetween := km_ft (lateral_dist rel) in
          inr (parallelLatSepMin applicableLatSepMin feetBetween, true)
        else inr (applicableLatSepMin, false)
    end
  else inr (applicableLatSepMin, false).

(** The ray intersection of lines 238-244. *)
Definition det (ad bd : vec) : R := bd.1 * ad.2 - bd.2 * ad.1.

Definition ray_u (p1 p2 ad bd : vec) : R :=
  let dx := p2.1 - p1.1 in
  let dy := p2.2 - p1.2 in
  (dy * bd.1 - dx * bd.2) / det ad bd.

Definition ray_v (p1 p2 ad bd : vec) : R :=
  let dx := p2.1 - p1.1 in
  let dy := p2.2 - p1.2 in
  (dy * ad.1 - dx * ad.2) / det ad bd.

(** Lines 227-257: the passing and diverging rules, from the provisional
    [conflict] and [violation] to the final ones. *)
Definition passingAndDiverging (s : State) (a1 a2 : Aircraft.t)
    (conflict violation : bool) : bool * bool :=
  if conflict then
    let hdg_difference :=
      abs (angle_offset (Aircraft.groundTrack a1) (Aircraft.groundTrack a2)) in
    if bool_decide (hdg_difference >= degreesToRadians 15) then
      if bool_decide (hdg_difference > degreesToRadians 165) then
        if bool_decide (distance_delta s > 0) then (false, false)
        else (conflict, violation)
      else
        let ad := vturn (Aircraft.groundTrack a1) in
        let bd := vturn (Aircraft.groundTrack a2) in
        let u := ray_u (Aircraft.position a1) (Aircraft.position a2) ad bd in
        let v := ray_v (Aircraft.position a1) (Aircraft.position a2) ad bd in
        if bool_decide (u < 0) || bool_decide (v < 0) then (false, false)
        else (conflict, violation)
    else (conflict, violation)
  else (conflict, violation).

(** Lines 259-263. *)
Definition updateConflicts (conflict violation : bool) (s : State) : State :=
  let s := set_conflicts (<["proximityConflict" := conflict]> (conflicts s)) s in
  set_violations (<["proximityViolation" := violation]> (violations s)) s.

(** Lines 222-263, for a given minimum and [disableNotices]. *)
Definition evaluateSeparation (applicableLatSepMin : R) (disableNotices : bool)
    (s : State) : State :=
  let a1 := (aircraft s).1 in
  let a2 := (aircraft s).2 in
  let violation := bool_decide (distance s < applicableLatSepMin) in
  let conflict :=
    (bool_decide (distance s < applicableLatSepMin + 1.852) && negb disableNotices)
    || violation in
  let '(conflict, violation) := passingAndDiverging s a1 a2 conflict violation in
  updateConflicts conflict violation s.

Definition checkProximity (env : Env) (s : State) : Completion :=
  if bool_decide (altitude s >= 1000) then
    let s := set_conflicts (<["proximityConflict" := false]> (conflicts s)) s in
    let s := set_conflicts (<["proximityViolation" := false]> (conflicts s)) s in
    Normal s
  else
    match applicableSeparation env (aircraft s).1 (aircraft s).2 with
    | inl e => Throw e s
    | inr (applicableLatSepMin, disableNotices) =>
        Normal (evaluateSeparation applicableLatSepMin disableNotices s)
    end.

(** *** update *)

(** Lines 69-72. *)
Definition recompute (s : State) : State :=
  let a0 := (aircraft s).1 in
  let a1 := (aircraft s).2 in
  let d := distance s in
  let distance' := vlen (vsub (Aircraft.position a0) (Aircraft.position a1)) in
  set_geometry distance' (distance' - d)
               (abs (Aircraft.altitude a0 - Aircraft.altitude a1)) s.

Definition update (env : Env) (s : State) : Completion :=
  if collided s then Normal s
  else
    let s := recompute s in
    if bool_decide (distance s > 14.816) then Normal (remove s)
    else
      let s := checkCollision env s in
      let s := checkRunwayCollision env s in
      let airportElevation := elevation (airport_get env) in
      let a0 := (aircraft s).1 in
      let a1 := (aircraft s).2 in
      if bool_decide (Aircraft.altitude a0 - airportElevation < 990)
         || bool_decide (Aircraft.altitude a1 - airportElevation < 990)
      then Normal s
      else if bool_decide (game_time env - Aircraft.takeoffTime a0 < 60)
              || bool_decide (game_time env - Aircraft.takeoffTime a0 < 60)
      then Normal s
      else checkProximity env s.

(** *** init *)

(** The constructor, run when the score counters are [hit] and [warning]
    and the calls made so far are [calls]. *)
Definition init (env : Env) (hit warning : R) (calls : list Event)
    (first second : Aircraft.t) : Completion :=
  let s := mkState (first, second)
                   (vlen (vsub (Aircraft.position first) (Aircraft.position second)))
                   0
                   (abs (Aircraft.altitude first - Aircraft.altitude second))
                   false ∅ ∅ hit warning calls in
  let s := emit [addConflict First Second; addConflict Second First] s in
  update env s.

(** ** Conditions named in the statements *)

(** The test of [checkCollision], lines 110-113. *)
Definition collisionCondition (s : State) : Prop :=
  Aircraft.isLanded (aircraft s).1 = false /\
  Aircraft.isLanded (aircraft s).2 = false /\
  distance s < 0.05 /\
  altitude s < 160 /\
  Aircraft.isVisible (aircraft s).1 = true /\
  Aircraft.isVisible (aircraft s).2 = true.

(** The entry of the metadata table for a pair of runway identifiers, if
    there is one. *)
Definition tableEntry (airport : Airport) (a b : option string)
  : option RunwayRelationship :=
  metadata_rwy airport !! propertyKey a ≫= (.!! propertyKey b).

(** ** Sample traffic

    Concrete aircraft, airports and tracker states on which the statements
    below are exercised. *)

Definition flight (callsign : string) (pos : vec) (alt track : R) : Aircraft.t :=
  Aircraft.mk callsign pos alt track 0 None None false false true false false.

(** Lookup in a table from identifiers to runway objects; [null] and
    unknown identifiers match nothing. *)
Definition lookupRunway (table : gmap string Runway) (id : option string)
  : option Runway :=
  id ≫= (table !!.).

(** One runway, 10/28, and no relationship metadata. *)
Definition plainAirport : Airport :=
  {| elevation := 0;
     runways := [(0%nat, 1%nat)];
     getRunway := lookupRunway (<["10" := 0%nat]> (<["28" := 0%nat]> ∅));
     metadata_rwy := ∅ |}.

Definition plainEnv : Env := {| airport_get := plainAirport; game_time := 600 |}.

(** A tracker as the constructor leaves it before its first [update]. *)
Definition tracker (first second : Aircraft.t) (d alt : R) : State :=
  mkState (first, second) d 0 alt false ∅ ∅ 0 0 [].

(** Two aircraft 15 km apart. *)
Definition farPair : State :=
  tracker (flight "AAL1" (0, 0) 5000 0) (flight "UAL2" (9, 12) 5000 0) 15 0.

(** Two aircraft 0.04 km and 150 ft apart, and 0.06 km and 150 ft apart. *)
Definition nearMiss004 : State :=
  tracker (flight "AAL1" (0, 0) 5000 0) (flight "UAL2" (0.04, 0) 5150 0) 0.04 150.
Definition nearMiss006 : State :=
  tracker (flight "AAL1" (0, 0) 5000 0) (flight "UAL2" (0.06, 0) 5150 0) 0.06 150.

(** A tracker frozen by a collision, with alerts left from earlier ticks. *)
Definition wreck : State :=
  mkState (flight "AAL1" (0, 0) 5000 0, flight "UAL2" (0.01, 0) 5000 0)
          0.01 0 0 true
          (<["proximityConflict" := true]> ∅) (<["proximityViolation" := true]> ∅)
          1 0 [ui_log true "AAL1 collided with UAL2"].

(** Two parallel runways 28L and 28R whose centrelines are 0.762 km, that
    is 2500 ft, apart. *)
Definition parallelAirport : Airport :=
  {| elevation := 0;
     runways := [(0%nat, 1%nat); (2%nat, 3%nat)];
     getRunway :=
       lookupRunway (<["10R" := 0%nat]> (<["28L" := 0%nat]>
                    (<["10L" := 2%nat]> (<["28R" := 2%nat]> ∅))));
     metadata_rwy :=
       <["28L" := <["28R" := {| parallel := true; lateral_dist := 0.762 |}]> ∅]>
       (<["28R" := <["28L" := {| parallel := true; lateral_dist := 0.762 |}]> ∅]> ∅) |}.

(** The same airport with a third runway, 01/19, that crosses the other
    two; its relationships are recorded, none of them parallel. *)
Definition crossingAirport : Airport :=
  {| elevation := 0;
     runways := [(0%nat, 1%nat); (2%nat, 3%nat); (4%nat, 5%nat)];
     getRunway :=
       lookupRunway (<["10R" := 0%nat]> (<["28L" := 0%nat]>
                    (<["10L" := 2%nat]> (<["28R" := 2%nat]>
                    (<["01" := 4%nat]> (<["19" := 4%nat]> ∅))))));
     metadata_rwy :=
       <["28L" := <["28R" := {| parallel := true; lateral_dist := 0.762 |}]>
                  (<["01" := {| parallel := false; lateral_dist := 0 |}]> ∅)]>
       (<["28R" := <["28L" := {| parallel := true; lateral_dist := 0.762 |}]>
                   (<["01" := {| parallel := false; lateral_dist := 0 |}]> ∅)]>
       (<["01" := <["28L" := {| parallel := false; lateral_dist := 0 |}]>
                  (<["28R" := {| parallel := false; lateral_dist := 0 |}]> ∅)]> ∅)) |}.

Definition crossingEnv : Env := {| airport_get := crossingAirport; game_time := 600 |}.

Definition parallelEnv : Env := {| airport_get := parallelAirport; game_time := 600 |}.

(** An arrival established on the approach to runway [rwy]. *)
Definition arrival (callsign : string) (pos : vec) (alt track : R) (rwy : string)
  : Aircraft.t :=
  Aircraft.mk callsign pos alt track 0 None (Some rwy) false false true true false.

(** North-bound AAL1 and east-bound UAL2, 5 km apart, both short of the
    point (0, 4) where their tracks cross. *)
Definition convergingPair : State :=
  tracker (flight "AAL1" (0, 0) 5000 0) (flight "UAL2" (-3, 4) 5000 (PI / 2)) 5 0.

(** The same with UAL2 already east of AAL1's track. *)
Definition crossedPair : State :=
  tracker (flight "AAL1" (0, 0) 5000 0) (flight "UAL2" (3, 4) 5000 (PI / 2)) 5 0.

(** AAL1 and UAL2 on the same track, 5 km apart at the same level. *)
Definition levelPair : State :=
  tracker (flight "AAL1" (0, 0) 5000 0) (flight "UAL2" (3, 4) 5000 0) 5 0.

(** The tracker of [levelPair] one tick later, after UAL2 has climbed
    1000 ft: the alerts are those the earlier tick raised, the geometry is
    not yet recomputed. *)
Definition climbedPair : State :=
  mkState (flight "AAL1" (0, 0) 5000 0, flight "UAL2" (3, 4) 6000 0)
          5 0 0 false
          (<["proximityConflict" := true]> (<["runwayCollision" := false]> ∅))
          (<["proximityViolation" := true]> ∅)
          0 0 [].

(** [climbedPair] as [update] hands it to [checkProximity]. *)
Definition separatedPair : State := set_geometry 5 0 1000 climbedPair.

(** An aircraft that left runway [rwy] at time [takeoff]. *)
Definition departure (callsign : string) (pos : vec) (alt track : R)
    (rwy : string) (takeoff : R) : Aircraft.t :=
  Aircraft.mk callsign pos alt track takeoff (Some rwy) None
              false false true false false.

(** At time 600: AAL1, long airborne, and UAL2, which took off at time 550,
    on the same track, 5 km and 100 ft apart. *)
Definition justDeparted : State :=
  tracker (flight "AAL1" (0, 0) 1500 0)
          (departure "UAL2" (3, 4) 1400 0 "28" 550) 5 100.

(** The same with the two aircraft in the other order. *)
Definition justDepartedFirst : State :=
  tracker (departure "UAL2" (3, 4) 1400 0 "28" 550)
          (flight "AAL1" (0, 0) 1500 0) 5 100.

(** At [plainAirport], whose one runway is 10/28: two departures, 5 km
    apart, whose assigned runways 09 and 27 match no runway. *)
Definition strayRunways : State :=
  tracker (departure "AAL1" (0, 0) 0 0 "09" 0)
          (departure "UAL2" (3, 4) 0 0 "27" 0) 5 0.

(** The same with AAL1 assigned the existing runway 10. *)
Definition oneStrayRunway : State :=
  tracker (departure "AAL1" (0, 0) 0 0 "10" 0)
          (departure "UAL2" (3, 4) 0 0 "27" 0) 5 0.

(** At [parallelAirport], which records no relationship between 28L and
    01: two arrivals established on those two approaches, 5 km and 0 ft
    apart. *)
Definition unrelatedApproaches : State :=
  tracker (arrival "AAL1" (0, 0) 3000 0 "28L")
          (arrival "UAL2" (3, 4) 3000 0 "01") 5 0.

(** ** Further conditions and sample traffic *)

(** The state a call leaves behind, however it ends. *)
Definition final (c : Completion) : State :=
  match c with
  | Normal s => s
  | Throw _ s => s
  end.

(** The test of [checkRunwayCollision], lines 147-153. *)
Definition runwayCollisionCondition (env : Env) (s : State) : Prop :=
  Aircraft.isTaxiing (aircraft s).1 = false /\
  Aircraft.isTaxiing (aircraft s).2 = false /\
  Aircraft.rwy_dep (aircraft s).1 <> None /\
  Aircraft.rwy_dep (aircraft s).1 <> Aircraft.rwy_dep (aircraft s).2 /\
  getRunway (airport_get env) (Aircraft.rwy_dep (aircraft s).2)
    = getRunway (airport_get env) (Aircraft.rwy_dep (aircraft s).1) /\
  distance s < 10.

(** The notice of line 157. *)
Definition collisionCourseNotice (s : State) : Event :=
  ui_log true (Aircraft.getCallsign (aircraft s).1
               +:+ " appears on a collision course with "
               +:+ Aircraft.getCallsign (aircraft s).2
               +:+ " on the same runway").

(** The verdict of lines 222-223, before the passing and diverging rules. *)
Definition provisionalViolation (minimum : R) (s : State) : bool :=
  bool_decide (distance s < minimum).

Definition provisionalConflict (minimum : R) (disableNotices : bool) (s : State)
  : bool :=
  (bool_decide (distance s < minimum + 1.852) && negb disableNotices)
  || provisionalViolation minimum s.

(** The absolute track difference of the two aircraft, line 228. *)
Definition hdg_difference (s : State) : R :=
  abs (angle_offset (Aircraft.groundTrack (aircraft s).1)
                    (Aircraft.groundTrack (aircraft s).2)).

(** At [plainAirport]: two departures rolling from the two ends of runway
    10/28, 5 km apart. *)
Definition opposingDepartures : State :=
  tracker (departure "AAL1" (0, 0) 0 0 "10" 0)
          (departure "UAL2" (3, 4) 0 0 "28" 0) 5 0.

(** North-bound AAL1 and south-bound UAL2 on the same line, 5 km apart and
    closing; and the same once they have passed each other. *)
Definition headOnClosing : State :=
  mkState (flight "AAL1" (0, 0) 5000 0, flight "UAL2" (0, 5) 5000 PI)
          5 (-0.2) 0 false ∅ ∅ 0 0 [].

Definition headOnPassed : State :=
  mkState (flight "AAL1" (0, 0) 5000 0, flight "UAL2" (0, -5) 5000 PI)
          5 0.2 0 false ∅ ∅ 0 0 [].

(** At [parallelAirport]: two arrivals established on 28L and 28R, 2 km
    apart at the same level. *)
Definition parallelApproaches : State :=
  tracker (arrival "AAL1" (0, 0) 3000 0 "28L")
          (arrival "UAL2" (1.2, 1.6) 3000 0 "28R") 2 0.

(** The tracker of [levelPair] after its first tick, once both aircraft
    have descended to 900 ft above the field. *)
Definition lowPair : State :=
  mkState (flight "AAL1" (0, 0) 900 0, flight "UAL2" (3, 4) 900 0)
          5 0 0 false
          (<["proximityConflict" := true]> (<["runwayCollision" := false]> ∅))
          (<["proximityViolation" := true]> ∅)
          0 0 [].

(** AAL1 and UAL2 on the same track and level, 10 km apart. *)
Definition widePair : State :=
  tracker (flight "AAL1" (0, 0) 5000 0) (flight "UAL2" (6, 8) 5000 0) 10 0.

(** * Properties *)

(** Settles the tests on concrete numbers and identifiers met in the goal. *)
Ltac settle :=
  repeat match goal with
  | |- context [bool_decide ?P] =>
      first [ rewrite (bool_decide_eq_true_2 P) by (simpl; lra)
            | rewrite (bool_decide_eq_false_2 P) by (simpl; lra)
            | rewrite (bool_decide_eq_true_2 P) by (vm_compute; congruence)
            | rewrite (bool_decide_eq_false_2 P) by (vm_compute; congruence) ]
  end.

(** Takes every test of the goal both ways. *)
Ltac both_ways :=
  repeat match goal with
  | |- context [if ?b then _ else _] => destruct b
  end.

(** ** Distances and angles of the sample traffic *)

Lemma vlen_pythagoras (x y h : R) :
  0 <= h -> x * x + y * y = h * h -> vlen (x, y) = h.
Proof.
  intros Hh Hsq. unfold vlen. simpl. rewrite Hsq. apply sqrt_square, Hh.
Qed.

Lemma vlen_3_4 : vlen (vsub (0, 0) (3, 4)) = 5.
Proof. unfold vsub. simpl. apply vlen_pythagoras; lra. Qed.

Lemma vlen_3_4_rev : vlen (vsub (3, 4) (0, 0)) = 5.
Proof. unfold vsub. simpl. apply vlen_pythagoras; lra. Qed.

Lemma vlen_9_12 : vlen (vsub (0, 0) (9, 12)) = 15.
Proof. unfold vsub. simpl. apply vlen_pythagoras; lra. Qed.

Lemma angle_offset_same (a : R) : angle_offset a a = 0.
Proof.
  unfold angle_offset. pose proof PI_RGT_0 as Hpi.
  replace ((a - a + PI) / (2 * PI)) with (1 / 2) by (field; lra).
  rewrite <- (Int_part_spec (1 / 2) 0) by (simpl; lra).
  simpl. lra.
Qed.

Lemma angle_offset_0_PI2 : angle_offset 0 (PI / 2) = - (PI / 2).
Proof.
  unfold angle_offset. pose proof PI_RGT_0 as Hpi.
  replace ((0 - PI / 2 + PI) / (2 * PI)) with (1 / 4) by (field; lra).
  rewrite <- (Int_part_spec (1 / 4) 0) by (simpl; lra).
  simpl. lra.
Qed.

Lemma north_east_range :
  degreesToRadians 15 <= abs (angle_offset 0 (PI / 2)) <= degreesToRadians 165.
Proof.
  rewrite angle_offset_0_PI2. unfold abs, degreesToRadians.
  rewrite Rabs_Ropp, Rabs_pos_eq; pose proof PI_RGT_0; lra.
Qed.

(** ** update: the frozen tracker and the bounding box *)

(** C3.  When [collided] is set, [update] returns at once: the state after the
    call is the state before it, field for field, and no call is logged. *)
Theorem update_collided_frozen (env : Env) (s : State) :
  collided s = true -> update env s = Normal s.
Proof. intros H. unfold update. rewrite H. reflexivity. Qed.

Lemma update_collided_frozen_witness :
  collided wreck = true /\ update plainEnv wreck = Normal wreck.
Proof. split; [reflexivity | apply update_collided_frozen; reflexivity]. Defined.

(** C6.  For a tracker that has not collided, when the recomputed distance
    exceeds 14.816 km, [update] stores the new geometry, asks each aircraft
    to drop the other, and returns: [collided], [conflicts], [violations],
    the aircraft and the score are those of before, and the two
    [removeConflict] calls are the only ones logged. *)
Theorem update_beyond_bounding_box (env : Env) (s : State) :
  collided s = false ->
  vlen (vsub (Aircraft.position (aircraft s).1) (Aircraft.position (aircraft s).2))
    > 14.816 ->
  let d := vlen (vsub (Aircraft.position (aircraft s).1)
                      (Aircraft.position (aircraft s).2)) in
  update env s =
  Normal (mkState (aircraft s) d (d - distance s)
                  (abs (Aircraft.altitude (aircraft s).1
                        - Aircraft.altitude (aircraft s).2))
                  (collided s) (conflicts s) (violations s)
                  (score_hit s) (score_warning s)
                  (log s ++ [removeConflict First Second;
                             removeConflict Second First])).
Proof.
  intros Hc Hd d. unfold update.
  destruct (collided s) eqn:E; [discriminate |].
  unfold recompute, set_geometry; simpl. rewrite E.
  rewrite bool_decide_eq_true_2 by exact Hd.
  reflexivity.
Qed.

Lemma update_beyond_bounding_box_witness :
  update plainEnv farPair =
  Normal (mkState (aircraft farPair) 15 0 0 false ∅ ∅ 0 0
                  [removeConflict First Second; removeConflict Second First]).
Proof.
  rewrite (update_beyond_bounding_box plainEnv farPair).
  - simpl. rewrite vlen_9_12. unfold abs.
    replace (15 - 15) with 0 by lra. replace (5000 - 5000) with 0 by lra.
    rewrite Rabs_R0. reflexivity.
  - reflexivity.
  - simpl. rewrite vlen_9_12. lra.
Defined.

(** A tracker constructed for two aircraft 15 km apart registers itself and
    is removed by its first [update]. *)
Lemma init_beyond_bounding_box :
  init plainEnv 0 0 [] (flight "AAL1" (0, 0) 5000 0) (flight "UAL2" (9, 12) 5000 0)
  = Normal (mkState (aircraft farPair) 15 0 0 false ∅ ∅ 0 0
              [addConflict First Second; addConflict Second First;
               removeConflict First Second; removeConflict Second First]).
Proof.
  unfold init, update, recompute. simpl. rewrite vlen_9_12. settle.
  unfold abs. replace (15 - 15) with 0 by lra.
  replace (5000 - 5000) with 0 by lra. rewrite Rabs_R0. reflexivity.
Qed.

(** ** checkCollision *)

Lemma checkCollision_fires (env : Env) (s : State) :
  collisionCondition s -> collided (checkCollision env s) = true.
Proof.
  intros (L1 & L2 & Hd & Ha & V1 & V2). unfold checkCollision.
  rewrite L1, L2, V1, V2. simpl.
  rewrite !bool_decide_eq_true_2 by assumption. reflexivity.
Qed.

Lemma checkCollision_skips (env : Env) (s : State) :
  ~ collisionCondition s -> checkCollision env s = s.
Proof.
  intros Hn. unfold checkCollision.
  destruct (Aircraft.isLanded (aircraft s).1) eqn:L1; [reflexivity |].
  destruct (Aircraft.isLanded (aircraft s).2) eqn:L2; [reflexivity |].
  simpl.
  destruct (bool_decide (distance s < 0.05)) eqn:Hd; [| reflexivity].
  destruct (bool_decide (altitude s < 160)) eqn:Ha; [| reflexivity].
  destruct (Aircraft.isVisible (aircraft s).1) eqn:V1; [| reflexivity].
  destruct (Aircraft.isVisible (aircraft s).2) eqn:V2; [| reflexivity].
  exfalso. apply Hn. unfold collisionCondition.
  apply bool_decide_eq_true_1 in Hd. apply bool_decide_eq_true_1 in Ha.
  auto 10.
Qed.

(** What a collision does besides setting [collided]: one notice, one hit
    counted, both aircraft marked, and both taken off every runway queue. *)
Lemma checkCollision_effects (env : Env) (s : State) :
  collisionCondition s ->
  checkCollision env s =
  mkState (Aircraft.set_hit true (aircraft s).1, Aircraft.set_hit true (aircraft s).2)
          (distance s) (distance_delta s) (altitude s) true
          (conflicts s) (violations s) (score_hit s + 1) (score_warning s)
          ((log s ++ [ui_log true (Aircraft.getCallsign (aircraft s).1
                                   +:+ " collided with "
                                   +:+ Aircraft.getCallsign (aircraft s).2)])
           ++ removeFromQueues (runways (airport_get env))).
Proof.
  intros (L1 & L2 & Hd & Ha & V1 & V2). unfold checkCollision.
  rewrite L1, L2, V1, V2. simpl.
  rewrite !bool_decide_eq_true_2 by assumption. reflexivity.
Qed.

(** C7.  [checkCollision] sets [collided] exactly when neither aircraft is
    landed, the distance is under 0.05 km, the vertical separation is under
    160 ft and both aircraft are visible; otherwise it changes nothing.  So
    0.04 km and 150 ft give a collision, 0.06 km and 150 ft give none. *)
Theorem checkCollision_exactly_when (env : Env) :
  (forall s, collided s = false ->
     (collided (checkCollision env s) = true <-> collisionCondition s)) /\
  (forall s, ~ collisionCondition s -> checkCollision env s = s) /\
  (forall s,
     Aircraft.isLanded (aircraft s).1 = false ->
     Aircraft.isLanded (aircraft s).2 = false ->
     Aircraft.isVisible (aircraft s).1 = true ->
     Aircraft.isVisible (aircraft s).2 = true ->
     altitude s = 150 ->
     (distance s = 0.04 -> collided (checkCollision env s) = true) /\
     (distance s = 0.06 -> collided s = false ->
      collided (checkCollision env s) = false)).
Proof.
  split; [| split].
  - intros s Hc. split.
    + intros H.
      assert (D : Decision (collisionCondition s))
        by (unfold collisionCondition; apply _).
      destruct D as [|Hn]; [assumption |].
      rewrite (checkCollision_skips env s Hn) in H. congruence.
    + apply checkCollision_fires.
  - intros s. apply checkCollision_skips.
  - intros s L1 L2 V1 V2 Ha. split.
    + intros Hd. apply checkCollision_fires.
      unfold collisionCondition. rewrite Hd, Ha. repeat split; auto; lra.
    + intros Hd Hc. rewrite checkCollision_skips; [assumption |].
      unfold collisionCondition. rewrite Hd. intros (_ & _ & H & _). lra.
Qed.

Lemma checkCollision_exactly_when_witness :
  collided (checkCollision plainEnv nearMiss004) = true /\
  collided (checkCollision plainEnv nearMiss006) = false.
Proof.
  destruct (checkCollision_exactly_when plainEnv) as (_ & _ & H).
  split.
  - apply (H nearMiss004); reflexivity.
  - apply (H nearMiss006); reflexivity.
Defined.

(** ** checkRunwayCollision *)

(** When the two lookups differ, and so when exactly one of them matches
    nothing, the check clears [runwayCollision] and does nothing else. *)
Lemma checkRunwayCollision_lookups_differ (env : Env) (s : State) :
  getRunway (airport_get env) (Aircraft.rwy_dep (aircraft s).2)
    <> getRunway (airport_get env) (Aircraft.rwy_dep (aircraft s).1) ->
  checkRunwayCollision env s
    = set_conflicts (<["runwayCollision" := false]> (conflicts s)) s.
Proof.
  intros Hne. unfold checkRunwayCollision.
  rewrite (bool_decide_eq_false_2 _ Hne).
  rewrite andb_false_r. reflexivity.
Qed.

Lemma checkRunwayCollision_oneStrayRunway :
  checkRunwayCollision plainEnv oneStrayRunway
    = set_conflicts (<["runwayCollision" := false]> ∅) oneStrayRunway.
Proof. apply checkRunwayCollision_lookups_differ. discriminate. Qed.

(** C5 (fails on the code).  In [strayRunways] both lookups match nothing,
    the two identifiers differ and the distance is under 10 km: the two
    [null] results compare equal, so [checkRunwayCollision] raises
    [runwayCollision], logs the notice and increments the warning counter. *)
Theorem checkRunwayCollision_both_lookups_fail :
  getRunway plainAirport (Aircraft.rwy_dep (aircraft strayRunways).1) = None /\
  getRunway plainAirport (Aircraft.rwy_dep (aircraft strayRunways).2) = None /\
  Aircraft.rwy_dep (aircraft strayRunways).1
    <> Aircraft.rwy_dep (aircraft strayRunways).2 /\
  distance strayRunways < 10 /\
  conflicts (checkRunwayCollision plainEnv strayRunways) !! "runwayCollision"
    = Some true /\
  log (checkRunwayCollision plainEnv strayRunways)
    = [ui_log true "AAL1 appears on a collision course with UAL2 on the same runway"] /\
  score_warning (checkRunwayCollision plainEnv strayRunways)
    = score_warning strayRunways + 1.
Proof.
  split; [reflexivity |]. split; [reflexivity |].
  split; [discriminate |]. split; [simpl; lra |].
  unfold checkRunwayCollision. simpl. settle. simpl.
  repeat split; reflexivity.
Qed.

(** ** update: the gates before checkProximity *)

(** The collision checks leave the aircraft where they are. *)
Lemma checkRunwayCollision_aircraft (env : Env) (s : State) :
  aircraft (checkRunwayCollision env s) = aircraft s.
Proof. unfold checkRunwayCollision. both_ways; reflexivity. Qed.

Lemma checkCollision_kinematics (env : Env) (s : State) :
  Aircraft.altitude (aircraft (checkCollision env s)).1
    = Aircraft.altitude (aircraft s).1 /\
  Aircraft.altitude (aircraft (checkCollision env s)).2
    = Aircraft.altitude (aircraft s).2 /\
  Aircraft.takeoffTime (aircraft (checkCollision env s)).1
    = Aircraft.takeoffTime (aircraft s).1.
Proof. unfold checkCollision. both_ways; repeat split; reflexivity. Qed.

Section Gates.

Variable env : Env.
Variable s : State.

(** The tracker is live, in range, and both aircraft are 990 ft or more
    above the field. *)
Hypothesis live : collided s = false.
Hypothesis in_range : distance (recompute s) <= 14.816.
Hypothesis first_high :
  990 <= Aircraft.altitude (aircraft s).1 - elevation (airport_get env).
Hypothesis second_high :
  990 <= Aircraft.altitude (aircraft s).2 - elevation (airport_get env).

(** Lines 89-95 as written: what is left of [update] is decided by the
    takeoff time of the first aircraft alone. *)
Lemma update_takeoff_gate :
  update env s =
  let s2 := checkRunwayCollision env (checkCollision env (recompute s)) in
  if bool_decide (game_time env - Aircraft.takeoffTime (aircraft s).1 < 60)
  then Normal s2 else checkProximity env s2.
Proof.
  unfold update. rewrite live.
  rewrite bool_decide_eq_false_2 by lra.
  rewrite !checkRunwayCollision_aircraft.
  destruct (checkCollision_kinematics env (recompute s)) as (-> & -> & ->).
  change (aircraft (recompute s)) with (aircraft s).
  rewrite !bool_decide_eq_false_2 by lra.
  rewrite !orb_diag. reflexivity.
Qed.

Lemma update_reaches_checkProximity :
  60 <= game_time env - Aircraft.takeoffTime (aircraft s).1 ->
  update env s =
  checkProximity env (checkRunwayCollision env (checkCollision env (recompute s))).
Proof.
  intros Ht. rewrite update_takeoff_gate.
  rewrite bool_decide_eq_false_2 by lra. reflexivity.
Qed.

Lemma update_first_just_departed :
  game_time env - Aircraft.takeoffTime (aircraft s).1 < 60 ->
  update env s =
  Normal (checkRunwayCollision env (checkCollision env (recompute s))).
Proof.
  intros Ht. rewrite update_takeoff_gate.
  rewrite bool_decide_eq_true_2 by lra. reflexivity.
Qed.

End Gates.

(** Under 15 degrees of track difference the provisional verdict stands. *)
Lemma same_track_stands (s : State) (a1 a2 : Aircraft.t) (c v : bool) :
  Aircraft.groundTrack a1 = Aircraft.groundTrack a2 ->
  passingAndDiverging s a1 a2 c v = (c, v).
Proof.
  intros Ht. unfold passingAndDiverging. rewrite Ht, angle_offset_same.
  unfold abs, degreesToRadians. rewrite Rabs_R0. pose proof PI_RGT_0.
  rewrite bool_decide_eq_false_2 by lra. destruct c; reflexivity.
Qed.

(** C2 (fails on the code).  In [justDeparted] only the second aircraft is in
    its first minute of flight.  [update] does not return at the gate: it
    runs [checkProximity], which raises [proximityConflict] and
    [proximityViolation], keys that the tracker did not have before. *)
Theorem update_second_just_departed_not_suppressed :
  game_time plainEnv - Aircraft.takeoffTime (aircraft justDeparted).2 < 60 /\
  conflicts justDeparted !! "proximityConflict" = None /\
  violations justDeparted !! "proximityViolation" = None /\
  exists s' : State,
    update plainEnv justDeparted = Normal s' /\
    conflicts s' !! "proximityConflict" = Some true /\
    violations s' !! "proximityViolation" = Some true.
Proof.
  split; [simpl; lra |]. split; [reflexivity |]. split; [reflexivity |].
  eexists. split.
  - rewrite update_reaches_checkProximity.
    + unfold recompute. simpl. rewrite vlen_3_4.
      replace (abs (1500 - 1400)) with 100
        by (unfold abs; rewrite Rabs_right; lra).
      unfold checkCollision. simpl. settle. simpl.
      unfold checkRunwayCollision. simpl.
      unfold checkProximity. simpl. settle.
      unfold evaluateSeparation. rewrite same_track_stands by reflexivity.
      simpl. settle. reflexivity.
    + reflexivity.
    + unfold recompute. simpl. rewrite vlen_3_4. lra.
    + simpl. lra.
    + simpl. lra.
    + simpl. lra.
  - split; reflexivity.
Qed.

(** With the same two aircraft in the other order the gate closes. *)
Lemma update_justDepartedFirst_suppressed :
  exists s' : State,
    update plainEnv justDepartedFirst = Normal s' /\
    conflicts s' !! "proximityConflict" = None /\
    violations s' !! "proximityViolation" = None.
Proof.
  eexists. split.
  - rewrite update_first_just_departed.
    + unfold recompute. simpl. rewrite vlen_3_4_rev.
      unfold checkCollision. simpl. settle. simpl.
      unfold checkRunwayCollision. simpl. settle. simpl.
      reflexivity.
    + reflexivity.
    + unfold recompute. simpl. rewrite vlen_3_4_rev. lra.
    + simpl. lra.
    + simpl. lra.
    + simpl. lra.
  - split; reflexivity.
Qed.

(** ** checkProximity: vertical separation *)

(** With 1000 ft or more of vertical separation [checkProximity] writes
    [false] under the two keys [proximityConflict] and [proximityViolation]
    of [conflicts], and nothing else: [violations] is not touched. *)
Lemma vertical_separation_returns_early (env : Env) (s : State) :
  altitude s >= 1000 ->
  checkProximity env s =
  Normal (set_conflicts
            (<["proximityViolation" := false]>
               (<["proximityConflict" := false]> (conflicts s))) s).
Proof.
  intros H. unfold checkProximity. rewrite bool_decide_eq_true_2 by assumption.
  reflexivity.
Qed.

(** The first tick of [levelPair] raises both alerts. *)
Lemma update_levelPair :
  update plainEnv levelPair =
  Normal (mkState (aircraft levelPair) 5 0 0 false
            (<["proximityConflict" := true]> (<["runwayCollision" := false]> ∅))
            (<["proximityViolation" := true]> ∅) 0 0 []).
Proof.
  rewrite update_reaches_checkProximity.
  - unfold recompute. simpl. rewrite vlen_3_4.
    replace (5 - 5) with 0 by lra. replace (5000 - 5000) with 0 by lra.
    unfold abs. rewrite Rabs_R0.
    unfold checkCollision. simpl. settle. simpl.
    unfold checkRunwayCollision. simpl.
    unfold checkProximity. simpl. settle.
    unfold evaluateSeparation. rewrite same_track_stands by reflexivity.
    simpl. settle. reflexivity.
  - reflexivity.
  - unfold recompute. simpl. rewrite vlen_3_4. lra.
  - simpl. lra.
  - simpl. lra.
  - simpl. lra.
Qed.

(** The next tick, with UAL2 1000 ft higher, leaves the violation raised. *)
Lemma update_climbedPair :
  update plainEnv climbedPair =
  Normal (mkState (aircraft climbedPair) 5 0 1000 false
            (<["proximityViolation" := false]>
               (<["proximityConflict" := false]>
                  (<["runwayCollision" := false]>
                     (<["proximityConflict" := true]>
                        (<["runwayCollision" := false]> ∅)))))
            (<["proximityViolation" := true]> ∅) 0 0 []).
Proof.
  rewrite update_reaches_checkProximity.
  - unfold recompute. simpl. rewrite vlen_3_4.
    replace (5 - 5) with 0 by lra.
    replace (abs (5000 - 6000)) with 1000
      by (unfold abs; rewrite Rabs_left; lra).
    unfold checkCollision. simpl. settle. simpl.
    unfold checkRunwayCollision. simpl.
    rewrite vertical_separation_returns_early by (simpl; lra).
    reflexivity.
  - reflexivity.
  - unfold recompute. simpl. rewrite vlen_3_4. lra.
  - simpl. lra.
  - simpl. lra.
  - simpl. lra.
Qed.

(** C1 (fails on the code).  [separatedPair] has 1000 ft of vertical
    separation and a [proximityViolation] raised by an earlier tick.
    [checkProximity] clears [conflicts.proximityConflict] and writes [false]
    under the stray key [conflicts.proximityViolation];
    [violations.proximityViolation] is still [true] afterwards. *)
Theorem checkProximity_vertical_keeps_violation :
  altitude separatedPair >= 1000 /\
  exists s' : State,
    checkProximity plainEnv separatedPair = Normal s' /\
    conflicts s' !! "proximityConflict" = Some false /\
    conflicts s' !! "proximityViolation" = Some false /\
    violations s' !! "proximityViolation" = Some true /\
    hasViolation s' = true.
Proof.
  split; [simpl; lra |].
  eexists. split; [apply vertical_separation_returns_early; simpl; lra |].
  repeat split; reflexivity.
Qed.

(** ** checkProximity: the separation minimum *)

Lemma parallelLatSepMin_bands (m f : R) :
  (f < 2500 -> parallelLatSepMin m f = 5.556) /\
  (2500 <= f <= 3600 -> parallelLatSepMin m f = 1.852) /\
  (3600 < f <= 4300 -> parallelLatSepMin m f = 2.778) /\
  (4300 < f <= 9000 -> parallelLatSepMin m f = 3.704) /\
  (9000 < f -> parallelLatSepMin m f = 5.556).
Proof.
  unfold parallelLatSepMin.
  repeat split; intros H; repeat case_bool_decide; simpl; try reflexivity; lra.
Qed.

(** C8.  When both aircraft are precision guided on different runways that
    the metadata table relates as parallel, [checkProximity] disables the
    notices and takes as minimum 5.556 km under 2500 ft between the runways,
    1.852 km from 2500 ft to 3600 ft, 2.778 km above 3600 ft to 4300 ft,
    3.704 km above 4300 ft to 9000 ft and 5.556 km above 9000 ft; exactly
    2500 ft gives 1.852 km, not 5.556 km. *)
Theorem parallel_approach_bands (env : Env) (a1 a2 : Aircraft.t)
    (rel : RunwayRelationship) :
  Aircraft.isPrecisionGuided a1 = true ->
  Aircraft.isPrecisionGuided a2 = true ->
  Aircraft.rwy_arr a1 <> Aircraft.rwy_arr a2 ->
  runwayRelationship (airport_get env) (Aircraft.rwy_arr a1) (Aircraft.rwy_arr a2)
    = inr rel ->
  parallel rel = true ->
  let feetBetween := km_ft (lateral_dist rel) in
  exists applicableLatSepMin : R,
    applicableSeparation env a1 a2 = inr (applicableLatSepMin, true) /\
    (feetBetween < 2500 -> applicableLatSepMin = 5.556) /\
    (2500 <= feetBetween <= 3600 -> applicableLatSepMin = 1.852) /\
    (3600 < feetBetween <= 4300 -> applicableLatSepMin = 2.778) /\
    (4300 < feetBetween <= 9000 -> applicableLatSepMin = 3.704) /\
    (9000 < feetBetween -> applicableLatSepMin = 5.556) /\
    (feetBetween = 2500 ->
     applicableLatSepMin = 1.852 /\ applicableLatSepMin <> 5.556).
Proof.
  intros P1 P2 Hne Hrel Hpar feetBetween.
  exists (parallelLatSepMin 5.556 feetBetween). split.
  - unfold applicableSeparation. rewrite P1, P2, Hrel, Hpar. simpl.
    rewrite bool_decide_eq_true_2 by assumption. reflexivity.
  - destruct (parallelLatSepMin_bands 5.556 feetBetween) as (B1 & B2 & B3 & B4 & B5).
    repeat split; auto.
    + apply B2. lra.
    + rewrite B2 by lra. lra.
Qed.

Lemma parallel_approach_bands_witness :
  applicableSeparation parallelEnv
    (arrival "AAL1" (0, 0) 3000 0 "28L") (arrival "UAL2" (0.762, 0) 3000 0 "28R")
  = inr (1.852, true).
Proof.
  destruct (parallel_approach_bands parallelEnv
              (arrival "AAL1" (0, 0) 3000 0 "28L")
              (arrival "UAL2" (0.762, 0) 3000 0 "28R")
              {| parallel := true; lateral_dist := 0.762 |})
    as (m & Hm & _ & _ & _ & _ & _ & H2500).
  - reflexivity.
  - reflexivity.
  - discriminate.
  - reflexivity.
  - reflexivity.
  - rewrite Hm. destruct H2500 as [-> _]; [| reflexivity].
    unfold km_ft; simpl. lra.
Defined.

Lemma runwayRelationship_entry (airport : Airport) (a b : option string) :
  runwayRelationship airport a b =
  match tableEntry airport a b with
  | Some rel => inr rel
  | None => inl TypeError
  end.
Proof.
  unfold runwayRelationship, tableEntry.
  destruct (metadata_rwy airport !! propertyKey a) as [row |]; simpl;
    [destruct (row !! propertyKey b) |]; reflexivity.
Qed.

(** A pair that is not on two different precision approaches is judged
    against 5.556 km with the notices enabled. *)
Lemma checkProximity_baseline (env : Env) (s : State) :
  altitude s < 1000 ->
  (Aircraft.isPrecisionGuided (aircraft s).1
   && Aircraft.isPrecisionGuided (aircraft s).2)
  && bool_decide (Aircraft.rwy_arr (aircraft s).1 <> Aircraft.rwy_arr (aircraft s).2)
  = false ->
  checkProximity env s = Normal (evaluateSeparation 5.556 false s).
Proof.
  intros Halt Hno. unfold checkProximity, applicableSeparation.
  rewrite bool_decide_eq_false_2 by lra. rewrite Hno. reflexivity.
Qed.

(** C4 (as amended).  Below 1000 ft of vertical separation, for two
    aircraft precision guided on different arrival runways: when the table
    has an entry for the pair and the entry is not parallel,
    [checkProximity] judges the pair against 5.556 km with the notices
    enabled; when the table has no entry for the pair, [checkProximity]
    faults with a [TypeError] and writes nothing. *)
Theorem checkProximity_precision_pair (env : Env) (s : State) :
  altitude s < 1000 ->
  Aircraft.isPrecisionGuided (aircraft s).1 = true ->
  Aircraft.isPrecisionGuided (aircraft s).2 = true ->
  Aircraft.rwy_arr (aircraft s).1 <> Aircraft.rwy_arr (aircraft s).2 ->
  (forall rel : RunwayRelationship,
     tableEntry (airport_get env) (Aircraft.rwy_arr (aircraft s).1)
                (Aircraft.rwy_arr (aircraft s).2) = Some rel ->
     parallel rel = false ->
     checkProximity env s = Normal (evaluateSeparation 5.556 false s)) /\
  (tableEntry (airport_get env) (Aircraft.rwy_arr (aircraft s).1)
              (Aircraft.rwy_arr (aircraft s).2) = None ->
   checkProximity env s = Throw TypeError s).
Proof.
  intros Halt P1 P2 Hne.
  assert (Hstart : checkProximity env s =
    match runwayRelationship (airport_get env) (Aircraft.rwy_arr (aircraft s).1)
                             (Aircraft.rwy_arr (aircraft s).2) with
    | inl e => Throw e s
    | inr rel =>
        if parallel rel
        then Normal (evaluateSeparation
                       (parallelLatSepMin 5.556 (km_ft (lateral_dist rel))) true s)
        else Normal (evaluateSeparation 5.556 false s)
    end).
  { unfold checkProximity, applicableSeparation.
    rewrite bool_decide_eq_false_2 by lra. rewrite P1, P2.
    rewrite (bool_decide_eq_true_2 _ Hne). simpl.
    destruct (runwayRelationship _ _ _) as [e | rel]; [reflexivity |].
    destruct (parallel rel); reflexivity. }
  rewrite Hstart, runwayRelationship_entry. split.
  - intros rel -> ->. reflexivity.
  - intros ->. reflexivity.
Qed.

(** The two arrivals of [unrelatedApproaches] at [crossingAirport], where
    the relationship of 28L and 01 is recorded. *)
Lemma checkProximity_precision_pair_witness :
  checkProximity crossingEnv unrelatedApproaches
    = Normal (evaluateSeparation 5.556 false unrelatedApproaches) /\
  checkProximity parallelEnv unrelatedApproaches
    = Throw TypeError unrelatedApproaches.
Proof.
  split.
  - destruct (checkProximity_precision_pair crossingEnv unrelatedApproaches)
      as [H _].
    + simpl. lra.
    + reflexivity.
    + reflexivity.
    + discriminate.
    + apply (H {| parallel := false; lateral_dist := 0 |}); reflexivity.
  - destruct (checkProximity_precision_pair parallelEnv unrelatedApproaches)
      as [_ H].
    + simpl. lra.
    + reflexivity.
    + reflexivity.
    + discriminate.
    + apply H. reflexivity.
Defined.

(** C4 (as stated, fails).  Both aircraft of [unrelatedApproaches] are
    precision guided on different arrival runways, and [parallelAirport]
    has no table entry for the pair; [checkProximity] does not judge the
    pair against 5.556 km: it faults. *)
Lemma missing_relationship_faults :
  Aircraft.isPrecisionGuided (aircraft unrelatedApproaches).1 = true /\
  Aircraft.isPrecisionGuided (aircraft unrelatedApproaches).2 = true /\
  Aircraft.rwy_arr (aircraft unrelatedApproaches).1
    <> Aircraft.rwy_arr (aircraft unrelatedApproaches).2 /\
  tableEntry parallelAirport (Aircraft.rwy_arr (aircraft unrelatedApproaches).1)
             (Aircraft.rwy_arr (aircraft unrelatedApproaches).2) = None /\
  checkProximity parallelEnv unrelatedApproaches
    <> Normal (evaluateSeparation 5.556 false unrelatedApproaches) /\
  checkProximity parallelEnv unrelatedApproaches
    = Throw TypeError unrelatedApproaches.
Proof.
  assert (H : checkProximity parallelEnv unrelatedApproaches
              = Throw TypeError unrelatedApproaches).
  { unfold checkProximity. simpl. settle. reflexivity. }
  repeat split; try reflexivity; try discriminate.
  - rewrite H. discriminate.
  - exact H.
Qed.

(** ** checkProximity: crossing courses *)

Lemma angle_offset_range (a b : R) : - PI <= angle_offset a b < PI.
Proof.
  unfold angle_offset. pose proof PI_RGT_0 as Hpi.
  set (x := (a - b + PI) / (2 * PI)).
  destruct (base_Int_part x) as [Hlo Hhi].
  assert (Hx : a - b + PI = x * (2 * PI)) by (unfold x; field; lra).
  split; nra.
Qed.

Lemma abs_angle_offset_range (a b : R) : 0 <= abs (angle_offset a b) <= PI.
Proof.
  destruct (angle_offset_range a b). unfold abs. split.
  - apply Rabs_pos.
  - apply Rabs_le. lra.
Qed.

Lemma angle_offset_whole_turns (a b : R) :
  exists k : Z, angle_offset a b = a - b - 2 * PI * IZR k.
Proof. eexists. reflexivity. Qed.

Lemma det_vturn (a b : R) : det (vturn a) (vturn b) = sin (b - a).
Proof. unfold det, vturn. simpl. rewrite sin_minus. ring. Qed.

Lemma vturn_unit (a : R) : vlen (vturn a) = 1.
Proof.
  unfold vlen, vturn. simpl.
  replace (sin a * sin a + cos a * cos a) with ((sin a)² + (cos a)²)
    by (unfold Rsqr; ring).
  rewrite sin2_cos2. apply sqrt_1.
Qed.

(** An offset that is a whole number of half turns and lies strictly
    between [-PI] and [PI] is zero. *)
Lemma half_turns_zero (n : Z) : - PI < IZR n * PI < PI -> n = 0%Z.
Proof.
  intros [Hlo Hhi]. pose proof PI_RGT_0 as Hpi.
  assert (H1 : IZR n < 1) by nra.
  assert (H2 : -1 < IZR n) by nra.
  apply lt_IZR in H1. apply lt_IZR in H2. lia.
Qed.

Lemma crossing_det_nonzero (a b : R) :
  0 < abs (angle_offset a b) < PI -> det (vturn a) (vturn b) <> 0.
Proof.
  intros [Hlo Hhi] Hdet. rewrite det_vturn in Hdet.
  apply sin_eq_0_0 in Hdet as [k Hk].
  destruct (angle_offset_whole_turns a b) as [t Ht].
  assert (Hn : angle_offset a b = IZR (- k - 2 * t) * PI).
  { rewrite Ht, minus_IZR, opp_IZR, mult_IZR.
    replace (a - b) with (- (b - a)) by ring. rewrite Hk. ring. }
  assert (Hz : (- k - 2 * t = 0)%Z).
  { apply half_turns_zero. rewrite <- Hn. unfold abs in Hhi.
    apply Rabs_def2 in Hhi. lra. }
  rewrite Hz in Hn. rewrite Hn in Hlo. unfold abs in Hlo.
  rewrite Rmult_0_l, Rabs_R0 in Hlo. lra.
Qed.

Lemma crossing_range_strict (h : R) :
  degreesToRadians 15 <= h <= degreesToRadians 165 -> 0 < h < PI.
Proof.
  unfold degreesToRadians. pose proof PI_RGT_0. intros [? ?]. split; lra.
Qed.

(** When the determinant is not zero, [ray_u] and [ray_v] are the
    parameters at which the two rays meet. *)
Lemma rays_meet (p1 p2 ad bd : vec) :
  det ad bd <> 0 ->
  p1.1 + ray_u p1 p2 ad bd * ad.1 = p2.1 + ray_v p1 p2 ad bd * bd.1 /\
  p1.2 + ray_u p1 p2 ad bd * ad.2 = p2.2 + ray_v p1 p2 ad bd * bd.2.
Proof.
  unfold ray_u, ray_v, det. destruct p1, p2, ad, bd. simpl.
  intros Hd. split; field; assumption.
Qed.

(** C10.  Whenever the absolute angular difference of the two ground tracks
    lies between 15 and 165 degrees, the determinant of the two unit track
    directions is not zero, so the divisions that give [u] and [v] are by a
    nonzero number. *)
Theorem crossing_det_well_defined (a b : R) :
  degreesToRadians 15 <= abs (angle_offset a b) <= degreesToRadians 165 ->
  det (vturn a) (vturn b) <> 0.
Proof.
  intros H. apply crossing_det_nonzero, crossing_range_strict, H.
Qed.

Lemma crossing_det_well_defined_witness :
  det (vturn 0) (vturn (PI / 2)) <> 0.
Proof.
  apply crossing_det_well_defined. exact north_east_range.
Defined.

Lemma passingAndDiverging_crossing (s : State) (a1 a2 : Aircraft.t) (violation : bool) :
  degreesToRadians 15
    <= abs (angle_offset (Aircraft.groundTrack a1) (Aircraft.groundTrack a2))
    <= degreesToRadians 165 ->
  passingAndDiverging s a1 a2 true violation =
  if bool_decide (ray_u (Aircraft.position a1) (Aircraft.position a2)
                        (vturn (Aircraft.groundTrack a1)) (vturn (Aircraft.groundTrack a2)) < 0)
     || bool_decide (ray_v (Aircraft.position a1) (Aircraft.position a2)
                           (vturn (Aircraft.groundTrack a1)) (vturn (Aircraft.groundTrack a2)) < 0)
  then (false, false) else (true, violation).
Proof.
  intros [Hlo Hhi]. unfold passingAndDiverging.
  rewrite bool_decide_eq_true_2 by lra.
  rewrite bool_decide_eq_false_2 by lra.
  reflexivity.
Qed.

(** C9.  Below 1000 ft of vertical separation, with the conflict
    provisionally raised and the track difference between 15 and 165
    degrees: [u] and [v] are the parameters at which the rays from the two
    positions along the two unit track directions meet; when both are
    non-negative the conflict stands (and the violation is as computed from
    the distance), and when either is negative both are cleared. *)
Theorem crossing_courses (env : Env) (s : State) (minimum : R) (disableNotices : bool) :
  let a1 := (aircraft s).1 in
  let a2 := (aircraft s).2 in
  let p1 := Aircraft.position a1 in
  let p2 := Aircraft.position a2 in
  let ad := vturn (Aircraft.groundTrack a1) in
  let bd := vturn (Aircraft.groundTrack a2) in
  let u := ray_u p1 p2 ad bd in
  let v := ray_v p1 p2 ad bd in
  altitude s < 1000 ->
  applicableSeparation env a1 a2 = inr (minimum, disableNotices) ->
  (distance s < minimum + 1.852 /\ disableNotices = false) \/ distance s < minimum ->
  degreesToRadians 15
    <= abs (angle_offset (Aircraft.groundTrack a1) (Aircraft.groundTrack a2))
    <= degreesToRadians 165 ->
  (p1.1 + u * ad.1 = p2.1 + v * bd.1 /\ p1.2 + u * ad.2 = p2.2 + v * bd.2) /\
  (0 <= u -> 0 <= v ->
   checkProximity env s =
   Normal (updateConflicts true (bool_decide (distance s < minimum)) s)) /\
  (u < 0 \/ v < 0 ->
   checkProximity env s = Normal (updateConflicts false false s)).
Proof.
  intros a1 a2 p1 p2 ad bd u v Halt Hsep Hprov Hrange.
  assert (Hstart : checkProximity env s =
    Normal (let '(c, vi) := passingAndDiverging s a1 a2 true
                              (bool_decide (distance s < minimum)) in
            updateConflicts c vi s)).
  { unfold checkProximity. rewrite bool_decide_eq_false_2 by lra.
    fold a1 a2. rewrite Hsep. unfold evaluateSeparation. fold a1 a2.
    replace ((bool_decide (distance s < minimum + 1.852) && negb disableNotices)
             || bool_decide (distance s < minimum)) with true; [reflexivity |].
    destruct Hprov as [[Hd ->] | Hd].
    - rewrite (bool_decide_eq_true_2 _ Hd). reflexivity.
    - rewrite (bool_decide_eq_true_2 _ Hd). rewrite orb_true_r. reflexivity. }
  rewrite (passingAndDiverging_crossing s a1 a2 _ Hrange) in Hstart.
  fold p1 p2 ad bd u v in Hstart.
  split; [| split].
  - apply rays_meet. apply crossing_det_nonzero, crossing_range_strict, Hrange.
  - intros Hu Hv. rewrite Hstart.
    rewrite !bool_decide_eq_false_2 by lra. reflexivity.
  - intros [Hu | Hv]; rewrite Hstart.
    + rewrite (bool_decide_eq_true_2 _ Hu). reflexivity.
    + rewrite (bool_decide_eq_true_2 _ Hv). rewrite orb_true_r. reflexivity.
Qed.

Lemma crossing_courses_witness :
  checkProximity plainEnv convergingPair
    = Normal (updateConflicts true true convergingPair) /\
  checkProximity plainEnv crossedPair
    = Normal (updateConflicts false false crossedPair).
Proof.
  split.
  - destruct (crossing_courses plainEnv convergingPair 5.556 false) as (_ & H & _).
    + simpl. lra.
    + reflexivity.
    + right. simpl. lra.
    + exact north_east_range.
    + rewrite H.
      * rewrite bool_decide_eq_true_2 by (simpl; lra). reflexivity.
      * unfold ray_u, det, vturn. simpl.
        rewrite sin_0, cos_0, sin_PI2, cos_PI2. lra.
      * unfold ray_v, det, vturn. simpl.
        rewrite sin_0, cos_0, sin_PI2, cos_PI2. lra.
  - destruct (crossing_courses plainEnv crossedPair 5.556 false) as (_ & _ & H).
    + simpl. lra.
    + reflexivity.
    + right. simpl. lra.
    + exact north_east_range.
    + apply H. right.
      unfold ray_v, det, vturn. simpl.
      rewrite sin_0, cos_0, sin_PI2, cos_PI2. lra.
Defined.

(** * Further properties *)

(** ** hasAlerts *)

Lemma anyTrue_iff (m : gmap string bool) :
  anyTrue m = true <-> exists k : string, m !! k = Some true.
Proof.
  unfold anyTrue. rewrite existsb_exists. split.
  - intros ([k b] & Hin & Hb). simpl in Hb. subst b.
    exists k. apply elem_of_map_to_list, list_elem_of_In, Hin.
  - intros [k Hk]. exists (k, true). split; [| reflexivity].
    apply list_elem_of_In, elem_of_map_to_list, Hk.
Qed.

(** X1.  [hasAlerts] reports a conflict exactly when some key of
    [conflicts] holds [true], and a violation exactly when some key of
    [violations] does; keys holding [false] and empty objects report
    nothing. *)
Theorem hasAlerts_exactly (s : State) :
  ((hasAlerts s).1 = true <-> exists k : string, conflicts s !! k = Some true) /\
  ((hasAlerts s).2 = true <-> exists k : string, violations s !! k = Some true).
Proof. split; apply anyTrue_iff. Qed.

(** ** checkRunwayCollision *)

Lemma runwayCollision_test (env : Env) (s : State) :
  (negb (Aircraft.isTaxiing (aircraft s).1) && negb (Aircraft.isTaxiing (aircraft s).2))
  && bool_decide (Aircraft.rwy_dep (aircraft s).1 <> None)
  && bool_decide (Aircraft.rwy_dep (aircraft s).1 <> Aircraft.rwy_dep (aircraft s).2)
  && bool_decide (getRunway (airport_get env) (Aircraft.rwy_dep (aircraft s).2)
                  = getRunway (airport_get env) (Aircraft.rwy_dep (aircraft s).1))
  && bool_decide (distance s < 10)
  = bool_decide (runwayCollisionCondition env s).
Proof.
  unfold runwayCollisionCondition.
  destruct (Aircraft.isTaxiing (aircraft s).1), (Aircraft.isTaxiing (aircraft s).2);
    simpl; repeat case_bool_decide; simpl; try reflexivity;
    try (exfalso; tauto); try (exfalso; intuition congruence).
Qed.

(** The three ways [checkRunwayCollision] can go. *)
Lemma checkRunwayCollision_cases (env : Env) (s : State) :
  checkRunwayCollision env s =
  if bool_decide (runwayCollisionCondition env s) then
    if truthy (conflicts s) "runwayCollision" then s
    else mkState (aircraft s) (distance s) (distance_delta s) (altitude s)
                 (collided s) (<["runwayCollision" := true]> (conflicts s))
                 (violations s) (score_hit s) (score_warning s + 1)
                 (log s ++ [collisionCourseNotice s])
  else set_conflicts (<["runwayCollision" := false]> (conflicts s)) s.
Proof.
  unfold checkRunwayCollision. rewrite runwayCollision_test.
  case_bool_decide; [| reflexivity].
  destruct (truthy (conflicts s) "runwayCollision"); reflexivity.
Qed.

Lemma runwayCollisionCondition_frame (env : Env) (s s' : State) :
  aircraft s' = aircraft s -> distance s' = distance s ->
  runwayCollisionCondition env s' <-> runwayCollisionCondition env s.
Proof. intros Ha Hd. unfold runwayCollisionCondition. rewrite Ha, Hd. tauto. Qed.

Lemma truthy_insert (m : gmap string bool) (k : string) (b : bool) :
  truthy (<[k := b]> m) k = b.
Proof. unfold truthy. rewrite lookup_insert_eq. reflexivity. Qed.


(** X3.  The collision-course notice and the increment of the warning
    counter come together, once, on the call that finds the condition true
    while [runwayCollision] is not yet truthy; every other call leaves the
    log and the counter as they were. *)
Theorem checkRunwayCollision_notice_once (env : Env) (s : State) :
  (runwayCollisionCondition env s ->
   truthy (conflicts s) "runwayCollision" = false ->
   log (checkRunwayCollision env s) = log s ++ [collisionCourseNotice s] /\
   score_warning (checkRunwayCollision env s) = score_warning s + 1) /\
  (~ runwayCollisionCondition env s \/ truthy (conflicts s) "runwayCollision" = true ->
   log (checkRunwayCollision env s) = log s /\
   score_warning (checkRunwayCollision env s) = score_warning s).
Proof.
  rewrite checkRunwayCollision_cases. split.
  - intros Hc Ht. rewrite (bool_decide_eq_true_2 _ Hc), Ht. split; reflexivity.
  - intros [Hn | Ht].
    + rewrite (bool_decide_eq_false_2 _ Hn). split; reflexivity.
    + rewrite Ht. case_bool_decide; split; reflexivity.
Qed.

(** X4.  Running [checkRunwayCollision] a second time on the state it
    returned changes nothing: no second notice, no second increment. *)
Theorem checkRunwayCollision_idempotent (env : Env) (s : State) :
  checkRunwayCollision env (checkRunwayCollision env s)
  = checkRunwayCollision env s.
Proof.
  rewrite (checkRunwayCollision_cases env s).
  case_bool_decide as Hc.
  - destruct (truthy (conflicts s) "runwayCollision") eqn:Ht.
    + rewrite checkRunwayCollision_cases.
      rewrite (bool_decide_eq_true_2 _ Hc), Ht. reflexivity.
    + rewrite checkRunwayCollision_cases.
      rewrite bool_decide_eq_true_2
        by (apply (runwayCollisionCondition_frame env s); [reflexivity .. | exact Hc]).
      simpl. rewrite truthy_insert. reflexivity.
  - rewrite checkRunwayCollision_cases.
    rewrite bool_decide_eq_false_2
      by (rewrite (runwayCollisionCondition_frame env s); [exact Hc | reflexivity ..]).
    unfold set_conflicts. simpl. rewrite insert_insert_eq. reflexivity.
Qed.

Lemma opposingDepartures_course :
  runwayCollisionCondition plainEnv opposingDepartures.
Proof.
  unfold runwayCollisionCondition. simpl.
  repeat split; try discriminate; try reflexivity. lra.
Qed.

Lemma checkRunwayCollision_notice_once_witness :
  log (checkRunwayCollision plainEnv opposingDepartures)
    = [collisionCourseNotice opposingDepartures] /\
  score_warning (checkRunwayCollision plainEnv opposingDepartures) = 0 + 1.
Proof.
  destruct (checkRunwayCollision_notice_once plainEnv opposingDepartures) as [H _].
  apply H; [exact opposingDepartures_course | reflexivity].
Defined.

(** ** checkCollision *)

Lemma removeFromQueues_all (rwys : list (Runway * Runway)) (rwy : Runway * Runway)
    (who : Side) :
  In rwy rwys ->
  In (removeQueue rwy.1 who true) (removeFromQueues rwys) /\
  In (removeQueue rwy.2 who true) (removeFromQueues rwys).
Proof.
  intros Hin. unfold removeFromQueues. rewrite !in_flat_map.
  split; exists rwy; (split; [exact Hin |]); destruct who; simpl; auto.
Qed.

(** X5.  On a collision both aircraft are marked [hit], the hit counter goes
    up by one, and for every runway of the airport each of the two aircraft
    is taken off the queue of both ends, with the force flag set. *)
Theorem checkCollision_clears_queues (env : Env) (s : State) :
  collisionCondition s ->
  Aircraft.hit (aircraft (checkCollision env s)).1 = true /\
  Aircraft.hit (aircraft (checkCollision env s)).2 = true /\
  score_hit (checkCollision env s) = score_hit s + 1 /\
  forall (rwy : Runway * Runway) (who : Side),
    In rwy (runways (airport_get env)) ->
    In (removeQueue rwy.1 who true) (log (checkCollision env s)) /\
    In (removeQueue rwy.2 who true) (log (checkCollision env s)).
Proof.
  intros Hc. rewrite (checkCollision_effects env s Hc). simpl.
  repeat split; try reflexivity.
  all: apply in_or_app; right; apply removeFromQueues_all; assumption.
Qed.

Lemma nearMiss004_collides : collisionCondition nearMiss004.
Proof. unfold collisionCondition. simpl. repeat split; try reflexivity; lra. Qed.

Lemma checkCollision_clears_queues_witness :
  In (removeQueue 3%nat Second true) (log (checkCollision parallelEnv nearMiss004)).
Proof.
  destruct (checkCollision_clears_queues parallelEnv nearMiss004 nearMiss004_collides)
    as (_ & _ & _ & H).
  apply (H (2%nat, 3%nat) Second). simpl. auto.
Defined.

(** ** What each check leaves alone *)

Lemma checkCollision_frame (env : Env) (s : State) :
  distance (checkCollision env s) = distance s /\
  distance_delta (checkCollision env s) = distance_delta s /\
  altitude (checkCollision env s) = altitude s /\
  conflicts (checkCollision env s) = conflicts s /\
  violations (checkCollision env s) = violations s /\
  score_warning (checkCollision env s) = score_warning s.
Proof. unfold checkCollision. both_ways; repeat split; reflexivity. Qed.

Lemma checkRunwayCollision_frame (env : Env) (s : State) :
  distance (checkRunwayCollision env s) = distance s /\
  distance_delta (checkRunwayCollision env s) = distance_delta s /\
  altitude (checkRunwayCollision env s) = altitude s /\
  collided (checkRunwayCollision env s) = collided s /\
  violations (checkRunwayCollision env s) = violations s /\
  score_hit (checkRunwayCollision env s) = score_hit s /\
  forall k : string, k <> "runwayCollision" ->
    conflicts (checkRunwayCollision env s) !! k = conflicts s !! k.
Proof.
  rewrite checkRunwayCollision_cases.
  both_ways; simpl; repeat split; try reflexivity;
    intros k Hk; rewrite lookup_insert_ne by congruence; reflexivity.
Qed.

Lemma passingAndDiverging_outcome (s : State) (a1 a2 : Aircraft.t) (c v : bool) :
  passingAndDiverging s a1 a2 c v = (c, v)
  \/ passingAndDiverging s a1 a2 c v = (false, false).
Proof. unfold passingAndDiverging. both_ways; auto. Qed.

Lemma evaluateSeparation_outcome (m : R) (dn : bool) (s : State) :
  evaluateSeparation m dn s
    = updateConflicts (provisionalConflict m dn s) (provisionalViolation m s) s
  \/ evaluateSeparation m dn s = updateConflicts false false s.
Proof.
  unfold evaluateSeparation.
  fold (provisionalViolation m s). fold (provisionalConflict m dn s).
  destruct (passingAndDiverging_outcome s (aircraft s).1 (aircraft s).2
              (provisionalConflict m dn s) (provisionalViolation m s)) as [-> | ->];
    auto.
Qed.

(** How [checkProximity] can end. *)
Lemma checkProximity_outcome (env : Env) (s : State) :
  (altitude s >= 1000 /\
   checkProximity env s =
   Normal (set_conflicts (<["proximityViolation" := false]>
                            (<["proximityConflict" := false]> (conflicts s))) s))
  \/ (altitude s < 1000 /\
      applicableSeparation env (aircraft s).1 (aircraft s).2 = inl TypeError /\
      checkProximity env s = Throw TypeError s)
  \/ (altitude s < 1000 /\
      exists (m : R) (dn c v : bool),
        applicableSeparation env (aircraft s).1 (aircraft s).2 = inr (m, dn) /\
        evaluateSeparation m dn s = updateConflicts c v s /\
        ((c = provisionalConflict m dn s /\ v = provisionalViolation m s)
         \/ (c = false /\ v = false)) /\
        checkProximity env s = Normal (updateConflicts c v s)).
Proof.
  unfold checkProximity. case_bool_decide as Halt.
  - left. split; [assumption | reflexivity].
  - apply Rnot_ge_lt in Halt. right.
    destruct (applicableSeparation env (aircraft s).1 (aircraft s).2)
      as [[] | [m dn]] eqn:Hsep.
    + left. auto.
    + right. split; [assumption |].
      destruct (evaluateSeparation_outcome m dn s) as [H | H].
      * exists m, dn, (provisionalConflict m dn s), (provisionalViolation m s).
        rewrite H. auto 10.
      * exists m, dn, false, false. rewrite H. auto 10.
Qed.

Lemma checkProximity_untouched (env : Env) (s : State) :
  let s' := final (checkProximity env s) in
  log s' = log s /\
  score_hit s' = score_hit s /\ score_warning s' = score_warning s /\
  collided s' = collided s /\ aircraft s' = aircraft s /\
  distance s' = distance s /\ distance_delta s' = distance_delta s /\
  altitude s' = altitude s /\
  (forall k : string, k <> "proximityViolation" ->
     violations s' !! k = violations s !! k) /\
  (forall k : string, k <> "proximityConflict" -> k <> "proximityViolation" ->
     conflicts s' !! k = conflicts s !! k).
Proof.
  destruct (checkProximity_outcome env s)
    as [[_ ->] | [(_ & _ & ->) | (_ & m & dn & c & v & _ & _ & _ & ->)]];
    simpl; repeat split; try reflexivity; intros k; intros;
    rewrite ?lookup_insert_ne by congruence; reflexivity.
Qed.

(** X6.  [checkProximity] makes no call on a collaborator and touches
    neither the score, nor [collided], nor the aircraft, nor the stored
    geometry; of [violations] it can only write [proximityViolation], and
    of [conflicts] only [proximityConflict] and [proximityViolation].  This
    holds however it ends. *)
Theorem checkProximity_frame (env : Env) (s : State) :
  let s' := final (checkProximity env s) in
  log s' = log s /\
  score_hit s' = score_hit s /\ score_warning s' = score_warning s /\
  collided s' = collided s /\ aircraft s' = aircraft s /\
  distance s' = distance s /\ distance_delta s' = distance_delta s /\
  altitude s' = altitude s /\
  (forall k : string, k <> "proximityViolation" ->
     violations s' !! k = violations s !! k) /\
  (forall k : string, k <> "proximityConflict" -> k <> "proximityViolation" ->
     conflicts s' !! k = conflicts s !! k).
Proof. exact (checkProximity_untouched env s). Qed.

(** ** checkProximity: the verdict *)

Lemma parallelLatSepMin_range (f : R) :
  1.852 <= parallelLatSepMin 5.556 f <= 5.556.
Proof. unfold parallelLatSepMin. both_ways; lra. Qed.

(** Whatever the runways, the minimum applied lies between 1.852 km and
    5.556 km. *)
Lemma applicableSeparation_range (env : Env) (a1 a2 : Aircraft.t) (m : R) (dn : bool) :
  applicableSeparation env a1 a2 = inr (m, dn) -> 1.852 <= m <= 5.556.
Proof.
  unfold applicableSeparation.
  destruct (_ && bool_decide _).
  - destruct (runwayRelationship _ _ _) as [e | rel]; [discriminate |].
    destruct (parallel rel); intros [= <- _];
      [apply parallelLatSepMin_range | lra].
  - intros [= <- _]. lra.
Qed.

Lemma updateConflicts_lookup (c v : bool) (s : State) :
  conflicts (updateConflicts c v s) !! "proximityConflict" = Some c /\
  violations (updateConflicts c v s) !! "proximityViolation" = Some v.
Proof. unfold updateConflicts. simpl. rewrite !lookup_insert_eq. auto. Qed.

(** X7.  Whenever [checkProximity] runs below 1000 ft of vertical separation
    and returns, it writes both alerts, and a violation is never written
    without the conflict. *)
Theorem checkProximity_violation_implies_conflict (env : Env) (s s' : State) :
  altitude s < 1000 ->
  checkProximity env s = Normal s' ->
  exists c v : bool,
    conflicts s' !! "proximityConflict" = Some c /\
    violations s' !! "proximityViolation" = Some v /\
    (v = true -> c = true).
Proof.
  intros Halt Hrun.
  destruct (checkProximity_outcome env s)
    as [[Hge _] | [(_ & _ & Hthrow) | (_ & m & dn & c & v & _ & _ & Hcv & Hn)]].
  - lra.
  - congruence.
  - rewrite Hn in Hrun. injection Hrun as <-.
    exists c, v. destruct (updateConflicts_lookup c v s) as [-> ->].
    repeat split. destruct Hcv as [[-> ->] | [-> ->]]; [| discriminate].
    unfold provisionalConflict. intros ->. apply orb_true_r.
Qed.

Lemma update_levelPair_proximity :
  checkProximity plainEnv levelPair
  = Normal (updateConflicts true true levelPair).
Proof.
  unfold checkProximity. simpl. settle.
  unfold evaluateSeparation. rewrite same_track_stands by reflexivity.
  simpl. settle. reflexivity.
Qed.

Lemma checkProximity_violation_implies_conflict_witness :
  exists c v : bool,
    conflicts (updateConflicts true true levelPair) !! "proximityConflict" = Some c /\
    violations (updateConflicts true true levelPair) !! "proximityViolation" = Some v /\
    (v = true -> c = true).
Proof.
  apply (checkProximity_violation_implies_conflict plainEnv levelPair).
  - simpl. lra.
  - exact update_levelPair_proximity.
Defined.

(** X8.  At 7.408 km or more (the largest minimum, 5.556 km, plus the
    1.852 km buffer) [checkProximity] raises nothing: whatever the runways
    and the tracks, if it returns it has written [false] for both alerts. *)
Theorem checkProximity_clear_beyond_buffer (env : Env) (s s' : State) :
  altitude s < 1000 ->
  7.408 <= distance s ->
  checkProximity env s = Normal s' ->
  conflicts s' !! "proximityConflict" = Some false /\
  violations s' !! "proximityViolation" = Some false.
Proof.
  intros Halt Hd Hrun.
  destruct (checkProximity_outcome env s)
    as [[Hge _] | [(_ & _ & Hthrow) | (_ & m & dn & c & v & Hsep & _ & Hcv & Hn)]].
  - lra.
  - congruence.
  - rewrite Hn in Hrun. injection Hrun as <-.
    destruct (updateConflicts_lookup c v s) as [-> ->].
    apply applicableSeparation_range in Hsep.
    destruct Hcv as [[-> ->] | [-> ->]]; [| split; reflexivity].
    unfold provisionalConflict, provisionalViolation.
    rewrite !bool_decide_eq_false_2 by lra. split; reflexivity.
Qed.

(** X9.  For two aircraft precision guided on different runways that the
    table relates as parallel, [checkProximity] gives no advisory: the
    conflict it writes is the violation it writes. *)
Theorem checkProximity_parallel_no_advisory (env : Env) (s s' : State)
    (rel : RunwayRelationship) :
  altitude s < 1000 ->
  Aircraft.isPrecisionGuided (aircraft s).1 = true ->
  Aircraft.isPrecisionGuided (aircraft s).2 = true ->
  Aircraft.rwy_arr (aircraft s).1 <> Aircraft.rwy_arr (aircraft s).2 ->
  tableEntry (airport_get env) (Aircraft.rwy_arr (aircraft s).1)
             (Aircraft.rwy_arr (aircraft s).2) = Some rel ->
  parallel rel = true ->
  checkProximity env s = Normal s' ->
  exists v : bool,
    conflicts s' !! "proximityConflict" = Some v /\
    violations s' !! "proximityViolation" = Some v.
Proof.
  intros Halt P1 P2 Hne Hrel Hpar Hrun.
  assert (Hsep : applicableSeparation env (aircraft s).1 (aircraft s).2
                 = inr (parallelLatSepMin 5.556 (km_ft (lateral_dist rel)), true)).
  { unfold applicableSeparation. rewrite P1, P2. simpl.
    rewrite (bool_decide_eq_true_2 _ Hne).
    rewrite runwayRelationship_entry, Hrel, Hpar. reflexivity. }
  destruct (checkProximity_outcome env s)
    as [[Hge _] | [(_ & _ & Hthrow) | (_ & m & dn & c & v & Hsep' & _ & Hcv & Hn)]].
  - lra.
  - congruence.
  - rewrite Hn in Hrun. injection Hrun as <-.
    rewrite Hsep in Hsep'. injection Hsep' as <- <-.
    destruct (updateConflicts_lookup c v s) as [-> ->].
    exists v. split; [| reflexivity].
    destruct Hcv as [[-> ->] | [-> ->]]; [| reflexivity].
    unfold provisionalConflict. simpl. rewrite andb_false_r. reflexivity.
Qed.

(** Below 1000 ft, once the minimum is found, the verdict is that of the
    passing and diverging rules applied to the provisional one. *)
Lemma checkProximity_run (env : Env) (s : State) (m : R) (dn : bool) :
  altitude s < 1000 ->
  applicableSeparation env (aircraft s).1 (aircraft s).2 = inr (m, dn) ->
  checkProximity env s =
  Normal (let '(c, v) := passingAndDiverging s (aircraft s).1 (aircraft s).2
                           (provisionalConflict m dn s) (provisionalViolation m s) in
          updateConflicts c v s).
Proof.
  intros Halt Hsep. unfold checkProximity.
  rewrite bool_decide_eq_false_2 by lra. rewrite Hsep. reflexivity.
Qed.

Lemma checkProximity_widePair :
  checkProximity plainEnv widePair = Normal (updateConflicts false false widePair).
Proof.
  unfold checkProximity. simpl. settle.
  unfold evaluateSeparation. simpl. settle. reflexivity.
Qed.

Lemma checkProximity_clear_beyond_buffer_witness :
  conflicts (updateConflicts false false widePair) !! "proximityConflict"
    = Some false /\
  violations (updateConflicts false false widePair) !! "proximityViolation"
    = Some false.
Proof.
  apply (checkProximity_clear_beyond_buffer plainEnv widePair).
  - simpl. lra.
  - simpl. lra.
  - exact checkProximity_widePair.
Defined.

Lemma parallelApproaches_minimum :
  applicableSeparation parallelEnv (aircraft parallelApproaches).1
                       (aircraft parallelApproaches).2
  = inr (1.852, true).
Proof.
  unfold applicableSeparation. simpl. settle. simpl.
  replace (runwayRelationship parallelAirport (Some "28L") (Some "28R"))
    with (inr {| parallel := true; lateral_dist := 0.762 |}
          : JsError + RunwayRelationship) by reflexivity.
  simpl. unfold parallelLatSepMin, km_ft. settle. reflexivity.
Qed.

Lemma checkProximity_parallelApproaches :
  checkProximity parallelEnv parallelApproaches
  = Normal (updateConflicts false false parallelApproaches).
Proof.
  rewrite (checkProximity_run parallelEnv parallelApproaches 1.852 true);
    [| simpl; lra | exact parallelApproaches_minimum].
  unfold provisionalConflict, provisionalViolation, passingAndDiverging.
  simpl. settle. reflexivity.
Qed.

Lemma checkProximity_parallel_no_advisory_witness :
  exists v : bool,
    conflicts (updateConflicts false false parallelApproaches)
      !! "proximityConflict" = Some v /\
    violations (updateConflicts false false parallelApproaches)
      !! "proximityViolation" = Some v.
Proof.
  apply (checkProximity_parallel_no_advisory parallelEnv parallelApproaches _
           {| parallel := true; lateral_dist := 0.762 |}).
  - simpl. lra.
  - reflexivity.
  - reflexivity.
  - discriminate.
  - reflexivity.
  - reflexivity.
  - exact checkProximity_parallelApproaches.
Defined.

(** ** checkProximity: passing and diverging *)

(** X10.  On near-opposite courses (track difference above 165 degrees) a
    provisional conflict is dropped, violation included, as soon as the
    distance has grown since the previous update; while the distance is
    steady or shrinking it stands. *)
Theorem opposite_courses (env : Env) (s : State) (minimum : R) (disableNotices : bool) :
  altitude s < 1000 ->
  applicableSeparation env (aircraft s).1 (aircraft s).2
    = inr (minimum, disableNotices) ->
  provisionalConflict minimum disableNotices s = true ->
  hdg_difference s > degreesToRadians 165 ->
  (distance_delta s > 0 ->
   checkProximity env s = Normal (updateConflicts false false s)) /\
  (distance_delta s <= 0 ->
   checkProximity env s =
   Normal (updateConflicts true (provisionalViolation minimum s) s)).
Proof.
  intros Halt Hsep Hprov Hhdg.
  rewrite (checkProximity_run env s minimum disableNotices Halt Hsep), Hprov.
  unfold passingAndDiverging. fold (hdg_difference s).
  assert (Hpi := PI_RGT_0).
  rewrite (bool_decide_eq_true_2 (hdg_difference s >= _))
    by (unfold degreesToRadians in *; lra).
  rewrite (bool_decide_eq_true_2 (hdg_difference s > _)) by assumption.
  split; intros Hdd.
  - rewrite bool_decide_eq_true_2 by assumption. reflexivity.
  - rewrite bool_decide_eq_false_2 by lra. reflexivity.
Qed.

Lemma angle_offset_0_PI : angle_offset 0 PI = - PI.
Proof.
  unfold angle_offset. pose proof PI_RGT_0 as Hpi.
  replace ((0 - PI + PI) / (2 * PI)) with 0 by (field; lra).
  rewrite <- (Int_part_spec 0 0) by (simpl; lra).
  simpl. lra.
Qed.

Lemma head_on_range : abs (angle_offset 0 PI) > degreesToRadians 165.
Proof.
  rewrite angle_offset_0_PI. unfold abs, degreesToRadians.
  rewrite Rabs_Ropp, Rabs_pos_eq; pose proof PI_RGT_0; lra.
Qed.

Lemma opposite_courses_witness :
  checkProximity plainEnv headOnPassed
    = Normal (updateConflicts false false headOnPassed) /\
  checkProximity plainEnv headOnClosing
    = Normal (updateConflicts true true headOnClosing).
Proof.
  split.
  - destruct (opposite_courses plainEnv headOnPassed 5.556 false) as [H _].
    + simpl. lra.
    + reflexivity.
    + unfold provisionalConflict, provisionalViolation. simpl. settle. reflexivity.
    + exact head_on_range.
    + apply H. simpl. lra.
  - destruct (opposite_courses plainEnv headOnClosing 5.556 false) as [_ H].
    + simpl. lra.
    + reflexivity.
    + unfold provisionalConflict, provisionalViolation. simpl. settle. reflexivity.
    + exact head_on_range.
    + rewrite H by (simpl; lra).
      unfold provisionalViolation. simpl. settle. reflexivity.
Defined.

(** X11.  When the two tracks differ by less than 15 degrees the passing
    and diverging rules change nothing: the alerts written are the
    provisional ones, whatever the positions and the trend of the distance. *)
Theorem similar_courses (env : Env) (s : State) (minimum : R) (disableNotices : bool) :
  altitude s < 1000 ->
  applicableSeparation env (aircraft s).1 (aircraft s).2
    = inr (minimum, disableNotices) ->
  hdg_difference s < degreesToRadians 15 ->
  checkProximity env s =
  Normal (updateConflicts (provisionalConflict minimum disableNotices s)
                          (provisionalViolation minimum s) s).
Proof.
  intros Halt Hsep Hhdg.
  rewrite (checkProximity_run env s minimum disableNotices Halt Hsep).
  unfold passingAndDiverging. fold (hdg_difference s).
  rewrite (bool_decide_eq_false_2 (hdg_difference s >= _)) by lra.
  destruct (provisionalConflict minimum disableNotices s); reflexivity.
Qed.

Lemma similar_courses_witness :
  checkProximity plainEnv levelPair = Normal (updateConflicts true true levelPair).
Proof.
  rewrite (similar_courses plainEnv levelPair 5.556 false).
  - unfold provisionalConflict, provisionalViolation. simpl. settle. reflexivity.
  - simpl. lra.
  - reflexivity.
  - unfold hdg_difference. simpl. rewrite angle_offset_same.
    unfold abs, degreesToRadians. rewrite Rabs_R0. pose proof PI_RGT_0. lra.
Defined.

(** ** update as a whole *)

(** The state with which [update] reaches the gates. *)
Lemma update_unfold (env : Env) (s : State) :
  collided s = false ->
  update env s =
  if bool_decide (distance (recompute s) > 14.816) then Normal (remove (recompute s))
  else
    let s2 := checkRunwayCollision env (checkCollision env (recompute s)) in
    if (bool_decide (Aircraft.altitude (aircraft s).1 - elevation (airport_get env) < 990)
        || bool_decide (Aircraft.altitude (aircraft s).2 - elevation (airport_get env) < 990))
       || bool_decide (game_time env - Aircraft.takeoffTime (aircraft s).1 < 60)
    then Normal s2
    else checkProximity env s2.
Proof.
  intros Hc. unfold update. rewrite Hc.
  case_bool_decide; [reflexivity |].
  rewrite !checkRunwayCollision_aircraft.
  destruct (checkCollision_kinematics env (recompute s)) as (-> & -> & ->).
  change (aircraft (recompute s)) with (aircraft s).
  rewrite orb_diag.
  destruct (bool_decide (_ < 990) || bool_decide (_ < 990)); reflexivity.
Qed.

(** Every way out of [update], for a live tracker. *)
Lemma update_outcome (env : Env) (s : State) :
  collided s = false ->
  let s2 := checkRunwayCollision env (checkCollision env (recompute s)) in
  (distance (recompute s) > 14.816 /\ update env s = Normal (remove (recompute s)))
  \/ (distance (recompute s) <= 14.816 /\ update env s = Normal s2)
  \/ (distance (recompute s) <= 14.816 /\ update env s = checkProximity env s2).
Proof.
  intros Hc s2. rewrite (update_unfold env s Hc).
  case_bool_decide as Hd; [left; auto |].
  apply Rnot_gt_le in Hd. right. fold s2.
  destruct (_ || _); [left | right]; auto.
Qed.

Lemma final_update_geometry (env : Env) (s : State) :
  collided s = false ->
  distance (final (update env s)) = distance (recompute s) /\
  distance_delta (final (update env s)) = distance_delta (recompute s) /\
  altitude (final (update env s)) = altitude (recompute s).
Proof.
  intros Hc.
  destruct (checkCollision_frame env (recompute s)) as (C1 & C2 & C3 & _).
  destruct (checkRunwayCollision_frame env (checkCollision env (recompute s)))
    as (R1 & R2 & R3 & _).
  destruct (checkProximity_untouched env
              (checkRunwayCollision env (checkCollision env (recompute s))))
    as (_ & _ & _ & _ & _ & P1 & P2 & P3 & _).
  destruct (update_outcome env s Hc) as [[_ ->] | [[_ ->] | [_ ->]]]; simpl.
  - auto.
  - rewrite R1, R2, R3, C1, C2, C3. auto.
  - rewrite P1, P2, P3, R1, R2, R3, C1, C2, C3. auto.
Qed.

(** X12.  Whatever way a live tracker leaves [update] (removal, a gate,
    [checkProximity], or a fault), the geometry it holds afterwards is that
    of the aircraft's current positions and altitudes: [distance] and
    [altitude] are not negative and [distance_delta] is the new distance
    minus the one held before. *)
Theorem update_geometry (env : Env) (s : State) :
  collided s = false ->
  let s' := final (update env s) in
  distance s' = vlen (vsub (Aircraft.position (aircraft s).1)
                           (Aircraft.position (aircraft s).2)) /\
  altitude s' = abs (Aircraft.altitude (aircraft s).1 - Aircraft.altitude (aircraft s).2) /\
  distance_delta s' = distance s' - distance s /\
  0 <= distance s' /\ 0 <= altitude s'.
Proof.
  intros Hc s'. subst s'.
  destruct (final_update_geometry env s Hc) as (-> & -> & ->).
  unfold recompute, vlen, abs. simpl.
  repeat split; try reflexivity; [apply sqrt_pos | apply Rabs_pos].
Qed.

Lemma update_geometry_witness :
  distance_delta (final (update plainEnv justDeparted))
  = distance (final (update plainEnv justDeparted)) - distance justDeparted.
Proof.
  destruct (update_geometry plainEnv justDeparted) as (_ & _ & H & _).
  - reflexivity.
  - exact H.
Defined.

Lemma final_update_collided (env : Env) (s : State) :
  collided s = false ->
  (distance (recompute s) > 14.816 /\
   collided (final (update env s)) = false /\
   score_hit (final (update env s)) = score_hit s /\
   aircraft (final (update env s)) = aircraft s)
  \/ (distance (recompute s) <= 14.816 /\
      collided (final (update env s)) = collided (checkCollision env (recompute s)) /\
      score_hit (final (update env s)) = score_hit (checkCollision env (recompute s)) /\
      aircraft (final (update env s)) = aircraft (checkCollision env (recompute s))).
Proof.
  intros Hc.
  destruct (checkRunwayCollision_frame env (checkCollision env (recompute s)))
    as (_ & _ & _ & R1 & _ & R2 & _).
  pose proof (checkRunwayCollision_aircraft env (checkCollision env (recompute s))) as R3.
  destruct (checkProximity_untouched env
              (checkRunwayCollision env (checkCollision env (recompute s))))
    as (_ & P2 & _ & P1 & P3 & _).
  destruct (update_outcome env s Hc) as [[Hd ->] | [[Hd ->] | [Hd ->]]]; simpl.
  - left. auto.
  - right. rewrite R1, R2, R3. auto.
  - right. rewrite P1, P2, P3, R1, R2, R3. auto.
Qed.

(** X13.  One call of [update] on a live tracker ends with [collided] set
    exactly when the aircraft are within 14.816 km and the collision test
    holds on the recomputed geometry; the hit counter then goes up by one
    and both aircraft are marked.  Otherwise the hit counter and the
    aircraft are as before. *)
Theorem update_collides_exactly_when (env : Env) (s : State) :
  collided s = false ->
  let s' := final (update env s) in
  (collided s' = true <->
   distance (recompute s) <= 14.816 /\ collisionCondition (recompute s)) /\
  (collided s' = true ->
   score_hit s' = score_hit s + 1 /\
   Aircraft.hit (aircraft s').1 = true /\ Aircraft.hit (aircraft s').2 = true) /\
  (collided s' = false -> score_hit s' = score_hit s /\ aircraft s' = aircraft s).
Proof.
  intros Hc s'. subst s'.
  assert (D : Decision (collisionCondition (recompute s)))
    by (unfold collisionCondition; apply _).
  destruct (final_update_collided env s Hc)
    as [(Hd & -> & -> & ->) | (Hd & -> & -> & ->)].
  - repeat split; try discriminate; try reflexivity. intros [? _]. lra.
  - destruct D as [Hcc | Hn].
    + rewrite (checkCollision_effects env _ Hcc). simpl.
      split; [tauto |]. split; [| discriminate].
      intros _. repeat split; reflexivity.
    + rewrite (checkCollision_skips env _ Hn). simpl. rewrite Hc.
      split; [| split; [discriminate | intros _; split; reflexivity]].
      split; [discriminate | tauto].
Qed.

Lemma recompute_nearMiss004 : recompute nearMiss004 = nearMiss004.
Proof.
  unfold recompute, vsub. simpl.
  rewrite (vlen_pythagoras _ _ 0.04) by lra.
  replace (abs (5000 - 5150)) with 150 by (unfold abs; rewrite Rabs_left; lra).
  replace (0.04 - 0.04) with 0 by lra. reflexivity.
Qed.

Lemma update_collides_exactly_when_witness :
  collided (final (update plainEnv nearMiss004)) = true.
Proof.
  destruct (update_collides_exactly_when plainEnv nearMiss004) as ([_ H] & _).
  - reflexivity.
  - apply H. rewrite recompute_nearMiss004. split.
    + simpl. lra.
    + exact nearMiss004_collides.
Defined.

(** X14.  While either aircraft is less than 990 ft above the field, a live
    tracker in range skips [checkProximity]: [update] returns after the two
    collision checks, and the proximity alerts are whatever an earlier call
    left, raised or not. *)
Theorem update_low_altitude_keeps_alerts (env : Env) (s : State) :
  collided s = false ->
  distance (recompute s) <= 14.816 ->
  Aircraft.altitude (aircraft s).1 - elevation (airport_get env) < 990
  \/ Aircraft.altitude (aircraft s).2 - elevation (airport_get env) < 990 ->
  update env s = Normal (checkRunwayCollision env (checkCollision env (recompute s))) /\
  conflicts (final (update env s)) !! "proximityConflict"
    = conflicts s !! "proximityConflict" /\
  violations (final (update env s)) = violations s.
Proof.
  intros Hc Hd Hlow.
  assert (Hrun : update env s
                 = Normal (checkRunwayCollision env (checkCollision env (recompute s)))).
  { rewrite (update_unfold env s Hc).
    rewrite bool_decide_eq_false_2 by lra.
    destruct Hlow as [H | H]; rewrite (bool_decide_eq_true_2 _ H);
      rewrite ?orb_true_r; reflexivity. }
  rewrite Hrun. simpl. split; [reflexivity |].
  destruct (checkCollision_frame env (recompute s)) as (_ & _ & _ & C1 & C2 & _).
  destruct (checkRunwayCollision_frame env (checkCollision env (recompute s)))
    as (_ & _ & _ & _ & R2 & _ & R1).
  rewrite R1 by discriminate. rewrite R2, C1, C2. split; reflexivity.
Qed.

Lemma update_low_altitude_keeps_alerts_witness :
  violations (final (update plainEnv lowPair))
  = <["proximityViolation" := true]> ∅.
Proof.
  destruct (update_low_altitude_keeps_alerts plainEnv lowPair) as (_ & _ & H).
  - reflexivity.
  - unfold recompute. simpl. rewrite vlen_3_4. lra.
  - left. simpl. lra.
  - exact H.
Defined.

(** ** Faults *)

Lemma applicableSeparation_fault (env : Env) (a1 a2 : Aircraft.t) (e : JsError) :
  applicableSeparation env a1 a2 = inl e ->
  Aircraft.isPrecisionGuided a1 = true /\
  Aircraft.isPrecisionGuided a2 = true /\
  Aircraft.rwy_arr a1 <> Aircraft.rwy_arr a2 /\
  tableEntry (airport_get env) (Aircraft.rwy_arr a1) (Aircraft.rwy_arr a2) = None.
Proof.
  unfold applicableSeparation. rewrite runwayRelationship_entry.
  destruct (Aircraft.isPrecisionGuided a1), (Aircraft.isPrecisionGuided a2);
    simpl; try discriminate.
  case_bool_decide as Hne; [| discriminate].
  destruct (tableEntry _ _ _) as [rel |]; [| auto].
  destruct (parallel rel); discriminate.
Qed.

Lemma checkCollision_approach (env : Env) (s : State) :
  Aircraft.isPrecisionGuided (aircraft (checkCollision env s)).1
    = Aircraft.isPrecisionGuided (aircraft s).1 /\
  Aircraft.isPrecisionGuided (aircraft (checkCollision env s)).2
    = Aircraft.isPrecisionGuided (aircraft s).2 /\
  Aircraft.rwy_arr (aircraft (checkCollision env s)).1
    = Aircraft.rwy_arr (aircraft s).1 /\
  Aircraft.rwy_arr (aircraft (checkCollision env s)).2
    = Aircraft.rwy_arr (aircraft s).2.
Proof. unfold checkCollision. both_ways; repeat split; reflexivity. Qed.

(** X15.  [update] can fault in one way only: both aircraft are precision
    guided on different arrival runways and the metadata table has no entry
    for that pair of identifiers.  For every other pair it returns. *)
Theorem update_faults_only_on_missing_entry (env : Env) (s s' : State) (e : JsError) :
  update env s = Throw e s' ->
  Aircraft.isPrecisionGuided (aircraft s).1 = true /\
  Aircraft.isPrecisionGuided (aircraft s).2 = true /\
  Aircraft.rwy_arr (aircraft s).1 <> Aircraft.rwy_arr (aircraft s).2 /\
  tableEntry (airport_get env) (Aircraft.rwy_arr (aircraft s).1)
             (Aircraft.rwy_arr (aircraft s).2) = None.
Proof.
  intros Hrun.
  destruct (collided s) eqn:Hc.
  { unfold update in Hrun. rewrite Hc in Hrun. discriminate. }
  destruct (update_outcome env s Hc) as [[_ H] | [[_ H] | [_ H]]];
    rewrite H in Hrun; try discriminate.
  set (s2 := checkRunwayCollision env (checkCollision env (recompute s))) in *.
  destruct (checkProximity_outcome env s2)
    as [[_ Hp] | [(_ & Hsep & _) | (_ & m & dn & c & v & _ & _ & _ & Hp)]];
    try (rewrite Hp in Hrun; discriminate).
  apply applicableSeparation_fault in Hsep. subst s2.
  rewrite checkRunwayCollision_aircraft in Hsep.
  destruct (checkCollision_approach env (recompute s)) as (A1 & A2 & A3 & A4).
  rewrite A1, A2, A3, A4 in Hsep. exact Hsep.
Qed.

Lemma update_unrelatedApproaches :
  exists s' : State, update parallelEnv unrelatedApproaches = Throw TypeError s'.
Proof.
  eexists. rewrite update_reaches_checkProximity.
  - unfold recompute. simpl. rewrite vlen_3_4.
    replace (abs (3000 - 3000)) with 0
      by (unfold abs; rewrite Rminus_diag, Rabs_R0; reflexivity).
    unfold checkCollision. simpl. settle. simpl.
    unfold checkRunwayCollision. simpl.
    unfold checkProximity. simpl. settle.
    unfold applicableSeparation. simpl. settle. simpl.
    replace (runwayRelationship parallelAirport (Some "28L") (Some "01"))
      with (inl TypeError : JsError + RunwayRelationship) by reflexivity.
    reflexivity.
  - reflexivity.
  - unfold recompute. simpl. rewrite vlen_3_4. lra.
  - simpl. lra.
  - simpl. lra.
  - simpl. lra.
Qed.

Lemma update_faults_only_on_missing_entry_witness :
  tableEntry parallelAirport (Some "28L") (Some "01") = None.
Proof.
  destruct update_unrelatedApproaches as [s' Hrun].
  apply (update_faults_only_on_missing_entry _ _ _ _ Hrun).
Defined.

(** ** Out of range *)

Lemma update_far (env : Env) (s : State) :
  collided s = false ->
  distance (recompute s) > 14.816 ->
  update env s = Normal (remove (recompute s)).
Proof.
  intros Hc Hd. rewrite (update_unfold env s Hc).
  rewrite (bool_decide_eq_true_2 _ Hd). reflexivity.
Qed.

(** X16.  A tracker constructed for two aircraft more than 14.816 km apart
    registers with both and is deregistered by the [update] the constructor
    runs: it is left with no alert, not collided, the score untouched, and
    the four calls are the only ones made. *)
Theorem init_out_of_range (env : Env) (hit warning : R) (calls : list Event)
    (first second : Aircraft.t) :
  vlen (vsub (Aircraft.position first) (Aircraft.position second)) > 14.816 ->
  init env hit warning calls first second =
  Normal (mkState (first, second)
            (vlen (vsub (Aircraft.position first) (Aircraft.position second)))
            0
            (abs (Aircraft.altitude first - Aircraft.altitude second))
            false ∅ ∅ hit warning
            (calls ++ [addConflict First Second; addConflict Second First;
                       removeConflict First Second; removeConflict Second First])).
Proof.
  intros Hd. unfold init. rewrite update_far; [| reflexivity | exact Hd].
  unfold remove, recompute, emit, set_geometry. simpl.
  rewrite Rminus_diag, <- app_assoc. reflexivity.
Qed.

Lemma init_out_of_range_witness :
  init plainEnv 0 0 [] (flight "AAL1" (0, 0) 5000 0) (flight "UAL2" (9, 12) 5000 0)
  = Normal (mkState (flight "AAL1" (0, 0) 5000 0, flight "UAL2" (9, 12) 5000 0)
              (vlen (vsub (0, 0) (9, 12))) 0 (abs (5000 - 5000)) false ∅ ∅ 0 0
              [addConflict First Second; addConflict Second First;
               removeConflict First Second; removeConflict Second First]).
Proof.
  apply (init_out_of_range plainEnv 0 0 []
           (flight "AAL1" (0, 0) 5000 0) (flight "UAL2" (9, 12) 5000 0)).
  simpl. rewrite vlen_9_12. lra.
Defined.

(** X17.  Removal leaves no mark on the tracker: while the aircraft stay
    out of range every further [update] asks again for the removal, and the
    second call finds the distance unchanged. *)
Theorem update_out_of_range_repeats (env : Env) (s : State) :
  collided s = false ->
  distance (recompute s) > 14.816 ->
  exists s1 s2 : State,
    update env s = Normal s1 /\
    update env s1 = Normal s2 /\
    log s2 = log s ++ [removeConflict First Second; removeConflict Second First;
                       removeConflict First Second; removeConflict Second First] /\
    distance_delta s2 = 0 /\
    collided s2 = false.
Proof.
  intros Hc Hd.
  exists (remove (recompute s)), (remove (recompute (remove (recompute s)))).
  split; [apply update_far; assumption |].
  split; [apply update_far; [exact Hc | exact Hd] |].
  simpl. rewrite <- app_assoc, Rminus_diag. auto.
Qed.

Lemma update_out_of_range_repeats_witness :
  exists s1 s2 : State,
    update plainEnv farPair = Normal s1 /\
    update plainEnv s1 = Normal s2 /\
    log s2 = log farPair
             ++ [removeConflict First Second; removeConflict Second First;
                 removeConflict First Second; removeConflict Second First] /\
    distance_delta s2 = 0 /\
    collided s2 = false.
Proof.
  apply update_out_of_range_repeats.
  - reflexivity.
  - unfold recompute. simpl. rewrite vlen_9_12. lra.
Defined.
